(** * Logistics AI assistant: tool registry, conversational agent and
      retrieval subsystem

    A shallow embedding of [backend/app/ai/tools.py], [backend/app/ai/agent.py],
    [backend/app/ai/rag.py], the AI router [backend/app/routers/ai.py] and
    the endpoint functions of [backend/app/routers/shipments.py].

    Python functions that can raise are written in an error monad
    ([result]); a [try: ... except Exception as e: ...] block is
    [try_except]; a dictionary is an association list of [PyVal]s.

    What the sources call but do not contain is an explicit argument of
    the embedded functions: the relational store ([Store]), the agent
    executor with its memory ([Executor]), the embedding call, the vector
    index, the text splitter and the language model ([Services]). *)

From Stdlib Require Import String Ascii List Bool Arith ZArith Lia.
From Stdlib Require Import Floats Uint63 DecimalString.
Import ListNotations.
Local Open Scope string_scope.

(* ===================================================================== *)
(** ** Python values that can raise *)
(* ===================================================================== *)

(** An exception object: its class name and the text [str(e)] yields. *)
Record Exn : Type := mkExn { exn_class : string; exn_text : string }.

Definition str_exn (e : Exn) : string := exn_text e.

Inductive result (A : Type) : Type :=
| Ok (a : A)
| Raise (e : Exn).
Arguments Ok {A} a.
Arguments Raise {A} e.

Definition bind {A B : Type} (c : result A) (k : A -> result B) : result B :=
  match c with
  | Ok a => k a
  | Raise e => Raise e
  end.

Notation "x <- c ;; k" := (bind c (fun x => k))
  (at level 61, c at next level, right associativity).

(** [try: body except Exception as e: handler(e)] *)
Definition try_except {A : Type} (body : result A) (handler : Exn -> result A)
  : result A :=
  match body with
  | Ok a => Ok a
  | Raise e => handler e
  end.

(** [for x in xs: acc = step(acc, x)] where [step] may raise. *)
Fixpoint for_each {A B : Type} (step : B -> A -> result B) (xs : list A) (acc : B)
  : result B :=
  match xs with
  | [] => Ok acc
  | x :: rest => acc' <- step acc x ;; for_each step rest acc'
  end.

(* ===================================================================== *)
(** ** Strings: ASCII case mapping, SQL LIKE *)
(* ===================================================================== *)

Definition nl : string := String (ascii_of_nat 10) EmptyString.

(** The separator between origin and destination in the result lines of
    [search_shipments], byte for byte as the source file has it (eight
    bytes: an arrow that was decoded and encoded once too often). *)
Definition arrow : string :=
  string_of_list_ascii
    (map ascii_of_nat [195; 162; 226; 128; 160; 226; 128; 153]).

Definition is_upper (c : ascii) : bool :=
  ((65 <=? nat_of_ascii c) && (nat_of_ascii c <=? 90))%nat.

Definition is_lower (c : ascii) : bool :=
  ((97 <=? nat_of_ascii c) && (nat_of_ascii c <=? 122))%nat.

Definition upper_char (c : ascii) : ascii :=
  if is_lower c then ascii_of_nat (nat_of_ascii c - 32) else c.

Definition lower_char (c : ascii) : ascii :=
  if is_upper c then ascii_of_nat (nat_of_ascii c + 32) else c.

Fixpoint map_string (f : ascii -> ascii) (s : string) : string :=
  match s with
  | EmptyString => EmptyString
  | String c rest => String (f c) (map_string f rest)
  end.

(** [s.upper()] and [s.lower()] on ASCII text; bytes outside the ASCII
    letters are left as they are. *)
Definition upper (s : string) : string := map_string upper_char s.
Definition lower (s : string) : string := map_string lower_char s.

(** Two characters are the same letter, in the same or the other case. *)
Definition same_letter (c d : ascii) : bool :=
  Ascii.eqb c d
  || (is_lower c && Ascii.eqb d (upper_char c))
  || (is_upper c && Ascii.eqb d (lower_char c)).

(** Two strings that differ only in letter case. *)
Fixpoint differ_only_in_case (s t : string) : bool :=
  match s, t with
  | EmptyString, EmptyString => true
  | String c s', String d t' => same_letter c d && differ_only_in_case s' t'
  | _, _ => false
  end.


(** SQL [LIKE]: [%] matches any run of characters, [_] any one character,
    every other pattern character matches itself. *)
Fixpoint like (pattern : string) : string -> bool :=
  match pattern with
  | EmptyString =>
      fun s => match s with EmptyString => true | String _ _ => false end
  | String p rest =>
      if Ascii.eqb p "%" then
        fix any_run (s : string) : bool :=
          like rest s
          || match s with
             | EmptyString => false
             | String _ s' => any_run s'
             end
      else if Ascii.eqb p "_" then
        fun s => match s with
                 | EmptyString => false
                 | String _ s' => like rest s'
                 end
      else
        fun s => match s with
                 | EmptyString => false
                 | String c s' => Ascii.eqb p c && like rest s'
                 end
  end.

(** [column.ilike(pattern)]: LIKE on the lower-cased operands. *)
Definition ilike (column pattern : string) : bool :=
  like (lower pattern) (lower column).

(** An [Optional[str]] criterion as [if criterion:] sees it: [None] and
    the empty string are falsy, any other string is given. *)
Definition given (o : option string) : option string :=
  match o with
  | Some s => if String.eqb s "" then None else Some s
  | None => None
  end.

(** [x or default] for an optional string. *)
Definition or_default (o : option string) (default : string) : string :=
  match o with
  | Some s => if String.eqb s "" then default else s
  | None => default
  end.

(** [str(n)] for a Python [int]. *)
Definition str_int (z : Z) : string := NilZero.string_of_int (Z.to_int z).

(** [float(n)] for a Python [int] in the 63-bit range. *)
Definition float_of_Z (z : Z) : float :=
  if (z <? 0)%Z
  then PrimFloat.opp (PrimFloat.of_uint63 (Uint63.of_Z (- z)))
  else PrimFloat.of_uint63 (Uint63.of_Z z).

(* ===================================================================== *)
(** ** The data store consulted by the tools
       ([app/models/shipment.py], [app/models/warehouse.py]) *)
(* ===================================================================== *)

Inductive ShipmentStatus : Type :=
| PENDING | PICKED_UP | IN_TRANSIT | OUT_FOR_DELIVERY
| DELIVERED | DELAYED | CANCELLED.

(** [status.value] *)
Definition status_value (s : ShipmentStatus) : string :=
  match s with
  | PENDING => "pending"
  | PICKED_UP => "picked_up"
  | IN_TRANSIT => "in_transit"
  | OUT_FOR_DELIVERY => "out_for_delivery"
  | DELIVERED => "delivered"
  | DELAYED => "delayed"
  | CANCELLED => "cancelled"
  end.

(** A [datetime], in seconds. *)
Definition datetime : Type := Z.

(** The columns of [Shipment] the tools read.  The model class declares
    the column [stimated_delivery]; it has no attribute
    [estimated_delivery]. *)
Record Shipment : Type := mkShipment {
  tracking_number : string;
  origin : string;
  destination : string;
  current_location : option string;
  status : ShipmentStatus;
  stimated_delivery : option datetime;
  actual_delivery : option datetime
}.

(** [shipment.estimated_delivery]: the attribute does not exist on the
    model class, so reading it raises [AttributeError]. *)
Definition estimated_delivery (sh : Shipment) : result (option datetime) :=
  Raise (mkExn "AttributeError"
           "'Shipment' object has no attribute 'estimated_delivery'").

Record Warehouse : Type := mkWarehouse {
  name : string;
  city : string;
  state : string;
  capacity_sqm : Z;
  current_utilization : option Z;
  phone : option string
}.

(** [Warehouse.utilization_percentage]; dividing a NULL utilization
    raises [TypeError]. *)
Definition utilization_percentage (wh : Warehouse) : result float :=
  if (capacity_sqm wh =? 0)%Z then Ok 0.0%float
  else
    match current_utilization wh with
    | None =>
        Raise (mkExn "TypeError"
                 "unsupported operand type(s) for /: 'NoneType' and 'int'")
    | Some u =>
        Ok (PrimFloat.mul
              (PrimFloat.div (float_of_Z u) (float_of_Z (capacity_sqm wh)))
              100.0%float)
    end.

(** The tables, in the store's natural row order, and the way the backend
    binds a status string to the [Enum] column of [Shipment.status]: the
    comparison it yields, or the fault it raises for that string. *)
Record Database : Type := mkDatabase {
  shipments : list Shipment;
  warehouses : list Warehouse;
  bind_status : string -> result (ShipmentStatus -> bool)
}.

(** The store as a tool finds it: reachable, or failing with a fault on
    the import, the session or the query. *)
Inductive Store : Type :=
| Available (db : Database)
| Unavailable (fault : Exn).

(** [db = SessionLocal()] *)
Definition SessionLocal (st : Store) : result Database :=
  match st with
  | Available db => Ok db
  | Unavailable fault => Raise fault
  end.

(** [query.first()] *)
Definition first {A : Type} (rows : list A) : option A :=
  match rows with
  | [] => None
  | r :: _ => Some r
  end.

(** [query.limit(n).all()] *)
Definition limit {A : Type} (n : nat) (rows : list A) : list A := firstn n rows.

(** Library functions whose results the handlers only paste into their
    answer text. *)
Record Formatting : Type := mkFormatting {
  format_fixed : nat -> float -> string;      (* f"{x:.Nf}" *)
  str_float : float -> string;                (* f"{x}" *)
  strftime : datetime -> string -> string     (* t.strftime(fmt) *)
}.

(** What a tool handler runs against. *)
Record Env : Type := mkEnv {
  store : Store;
  utcnow : datetime;
  fmt : Formatting
}.

(* ===================================================================== *)
(** ** Tool handlers ([app/ai/tools.py]) *)
(* ===================================================================== *)

(** The rows selected by
    [filter(Shipment.tracking_number == tracking_number.upper()).first()]. *)
Definition shipment_by_tracking (db : Database) (tracking : string)
  : option Shipment :=
  first (filter (fun sh => String.eqb (tracking_number sh) (upper tracking))
                (shipments db)).

Definition get_shipment_status (env : Env) (tracking : string) : result string :=
  try_except
    (db <- SessionLocal (store env) ;;
     match shipment_by_tracking db tracking with
     | None =>
         Ok ("Shipment with tracking number " ++ tracking
             ++ " not found. Please verify the tracking number and try again.")
     | Some shipment =>
         let location :=
           or_default (current_location shipment) "Processing at origin" in
         Ok ("Shipment " ++ tracking ++ ": Status is '"
             ++ status_value (status shipment)
             ++ "'. Current location: " ++ location
             ++ ". Origin: " ++ origin shipment
             ++ ", Destination: " ++ destination shipment ++ ".")
     end)
    (fun e =>
       Ok ("Unable to retrieve status for " ++ tracking ++ ". Please try again.")).

Definition calculate_shipping_cost (env : Env)
    (origin_ destination_ : string) (weight_kg : float) : result string :=
  try_except
    (let base_rate := 10.0%float in
     let per_kg_rate := 2.5%float in
     let distance_factor :=
       if negb (String.eqb (lower origin_) (lower destination_))
       then 1.5%float else 1.0%float in
     let total_cost :=
       PrimFloat.mul
         (PrimFloat.add base_rate (PrimFloat.mul weight_kg per_kg_rate))
         distance_factor in
     Ok ("Estimated shipping cost from " ++ origin_ ++ " to " ++ destination_
         ++ " for " ++ str_float (fmt env) weight_kg ++ "kg: $"
         ++ format_fixed (fmt env) 2 total_cost
         ++ " USD. This includes base rate, weight charges, and distance calculation."))
    (fun e =>
       Ok "Unable to calculate shipping cost. Please verify the input parameters.").

(** The rows selected by
    [filter(Warehouse.city.ilike(f"%{location}%")).limit(3).all()]. *)
Definition warehouses_near (db : Database) (location : string) : list Warehouse :=
  limit 3 (filter (fun wh => ilike (city wh) ("%" ++ location ++ "%"))
                  (warehouses db)).

Definition find_nearest_warehouse (env : Env) (location : string) : result string :=
  try_except
    (db <- SessionLocal (store env) ;;
     let found := warehouses_near db location in
     match found with
     | [] =>
         Ok ("No warehouses found near " ++ location
             ++ ". Please try a different location or contact support.")
     | _ :: _ =>
         for_each
           (fun acc wh =>
              pct <- utilization_percentage wh ;;
              Ok (acc ++ "- " ++ name wh ++ " in " ++ city wh ++ ", " ++ state wh
                  ++ ": " ++ format_fixed (fmt env) 1 pct ++ "% utilized, Contact: "
                  ++ match phone wh with Some p => p | None => "None" end ++ nl))
           found
           ("Warehouses near " ++ location ++ ":" ++ nl)
     end)
    (fun e => Ok "Unable to find nearby warehouses. Please try again.").

Definition seconds_per_day : Z := 86400.

Definition estimate_delivery_time (env : Env) (tracking : string) : result string :=
  try_except
    (db <- SessionLocal (store env) ;;
     match shipment_by_tracking db tracking with
     | None => Ok ("Shipment " ++ tracking ++ " not found.")
     | Some shipment =>
         match actual_delivery shipment with
         | Some delivered =>
             Ok ("Shipment " ++ tracking ++ " was already delivered on "
                 ++ strftime (fmt env) delivered "%Y-%m-%d %H:%M" ++ ".")
         | None =>
             estimated <- estimated_delivery shipment ;;
             match estimated with
             | Some est =>
                 let est_date := strftime (fmt env) est "%Y-%m-%d" in
                 let days_remaining := ((est - utcnow env) / seconds_per_day)%Z in
                 Ok ("Shipment " ++ tracking ++ " is estimated to be delivered on "
                     ++ est_date ++ " (approximately " ++ str_int days_remaining
                     ++ " days from now).")
             | None =>
                 let est_days := 3%Z in
                 let est_date :=
                   strftime (fmt env)
                            (utcnow env + est_days * seconds_per_day)%Z "%Y-%m-%d" in
                 Ok ("Shipment " ++ tracking ++ " is estimated to be delivered by "
                     ++ est_date ++ " (approximately " ++ str_int est_days
                     ++ " business days).")
             end
         end
     end)
    (fun e => Ok "Unable to estimate delivery time. Please try again.").

(** The rows selected by the query [search_shipments] builds: each given
    (truthy) criterion adds a filter, then [limit(10).all()]. *)
Definition shipments_matching (db : Database)
    (status_ origin_ destination_ : option string) : result (list Shipment) :=
  by_status <-
    match given status_ with
    | Some wanted => bind_status db wanted
    | None => Ok (fun _ => true)
    end ;;
  let by_origin sh :=
    match given origin_ with
    | Some wanted => ilike (origin sh) ("%" ++ wanted ++ "%")
    | None => true
    end in
  let by_destination sh :=
    match given destination_ with
    | Some wanted => ilike (destination sh) ("%" ++ wanted ++ "%")
    | None => true
    end in
  Ok (limit 10
        (filter by_destination
           (filter by_origin
              (filter (fun sh => by_status (status sh)) (shipments db))))).

Definition search_shipments (env : Env)
    (status_ origin_ destination_ : option string) : result string :=
  try_except
    (db <- SessionLocal (store env) ;;
     found <- shipments_matching db status_ origin_ destination_ ;;
     match found with
     | [] => Ok "No shipments found matching the criteria."
     | _ :: _ =>
         for_each
           (fun acc ship =>
              Ok (acc ++ "- " ++ tracking_number ship ++ ": "
                  ++ status_value (status ship) ++ ", " ++ origin ship
                  ++ " " ++ arrow ++ " " ++ destination ship ++ nl))
           found
           ("Found " ++ str_int (Z.of_nat (length found)) ++ " shipment(s):" ++ nl)
     end)
    (fun e => Ok "Unable to search shipments. Please try again.").

(* ===================================================================== *)
(** ** The tool registry ([LogisticsAIAgent.tools], [app/ai/agent.py]) *)
(* ===================================================================== *)

(** A call of a registered tool with arguments of the handler's types. *)
Inductive ToolCall : Type :=
| call_get_shipment_status (tracking : string)
| call_calculate_shipping_cost (origin_ destination_ : string) (weight_kg : float)
| call_find_nearest_warehouse (location : string)
| call_estimate_delivery_time (tracking : string)
| call_search_shipments (status_ origin_ destination_ : option string).

Definition tool_name (c : ToolCall) : string :=
  match c with
  | call_get_shipment_status _ => "get_shipment_status"
  | call_calculate_shipping_cost _ _ _ => "calculate_shipping_cost"
  | call_find_nearest_warehouse _ => "find_nearest_warehouse"
  | call_estimate_delivery_time _ => "estimate_delivery_time"
  | call_search_shipments _ _ _ => "search_shipments"
  end.

(** [self.tools] *)
Definition tools : list string :=
  [ "get_shipment_status"; "calculate_shipping_cost"; "find_nearest_warehouse";
    "estimate_delivery_time"; "search_shipments" ].

(** Running the handler registered under the call's name. *)
Definition invoke (env : Env) (c : ToolCall) : result string :=
  match c with
  | call_get_shipment_status t => get_shipment_status env t
  | call_calculate_shipping_cost o d w => calculate_shipping_cost env o d w
  | call_find_nearest_warehouse l => find_nearest_warehouse env l
  | call_estimate_delivery_time t => estimate_delivery_time env t
  | call_search_shipments s o d => search_shipments env s o d
  end.

(* ===================================================================== *)
(** ** Python dictionaries and HTTP outcomes *)
(* ===================================================================== *)

#[local] Unset Elimination Schemes.
Inductive PyVal : Type :=
| VNone
| VStr (s : string)
| VInt (z : Z)
| VList (items : list PyVal)
| VDict (entries : list (string * PyVal)).
#[local] Set Elimination Schemes.

Definition Dict : Type := list (string * PyVal).

(** [d.get(key)]; [d[key]] when the key is known to be there. *)
Fixpoint get (d : Dict) (key : string) : option PyVal :=
  match d with
  | [] => None
  | (k, v) :: rest => if String.eqb k key then Some v else get rest key
  end.

(** What an endpoint hands to its HTTP caller: a response body, or the
    [HTTPException] it raises. *)
Inductive Http (A : Type) : Type :=
| Response (body : A)
| HTTPException (status_code : nat) (detail : string).
Arguments Response {A} body.
Arguments HTTPException {A} status_code detail.

(* ===================================================================== *)
(** ** The conversational agent ([app/ai/agent.py]) *)
(* ===================================================================== *)

Inductive Role : Type := user | assistant | tool.

Record Turn : Type := mkTurn { role : Role; content : string }.

(** The content of [ConversationBufferMemory]: the turns kept so far. *)
Definition History : Type := list Turn.

(** One intermediate step: the pair of the tool action and its
    observation (the test [len(step) >= 2] of [_extract_sources] always
    passes on it). *)
Record Step : Type := mkStep {
  step_tool : string;
  step_tool_input : string;
  step_observation : string
}.

(** What [executor.ainvoke] returns when it returns. *)
Record Finish : Type := mkFinish {
  output : string;
  intermediate_steps : list Step
}.

(** The [AgentExecutor] built in [__init__] with [memory=self.memory],
    [max_iterations=5], [max_execution_time=30]:
    [executor.ainvoke({"input": message})] is given the memory content and
    the message, returns or raises, and leaves the memory with some
    content.  The language model, the loop and what it records are the
    library's. *)
Definition Executor : Type := History -> string -> result Finish * History.

(** [max_iterations=5] and [max_execution_time=30] (seconds) of the
    executor. *)
Definition max_iterations : nat := 5.
Definition max_execution_time : nat := 30.

(** The state of a [LogisticsAIAgent]: its one [self.memory]. *)
Record LogisticsAIAgent : Type := mkAgent { memory : History }.

(** [LogisticsAIAgent()]: a new agent starts with an empty memory. *)
Definition new_agent : LogisticsAIAgent := mkAgent [].

Definition apology : string :=
  "I apologize, but I encountered an error processing your request. Please try again or rephrase your question.".

(** [s[:n]] *)
Definition prefix (n : nat) (s : string) : string := substring 0 n s.

Definition _extract_sources (steps : list Step) : list PyVal :=
  map (fun step =>
         VDict [ ("tool", VStr (step_tool step));
                 ("input", VStr (step_tool_input step));
                 ("output", VStr (prefix 200 (step_observation step))) ])
      steps.

(** [await agent.chat(message, conversation_id)]: the returned dictionary
    (or the exception that escapes) and the agent afterwards. *)
Definition chat (executor : Executor) (agent : LogisticsAIAgent)
    (message : string) (conversation_id : option string)
  : result Dict * LogisticsAIAgent :=
  let (outcome, memory_after) := executor (memory agent) message in
  (try_except
     (finished <- outcome ;;
      Ok [ ("message", VStr (output finished));
           ("conversation_id", VStr (or_default conversation_id "new"));
           ("tokens_used", VNone);
           ("sources", VList (_extract_sources (intermediate_steps finished))) ])
     (fun e =>
        Ok [ ("message", VStr apology);
             ("conversation_id", VStr (or_default conversation_id "new"));
             ("error", VStr (str_exn e)) ]),
   mkAgent memory_after).

(** [self.memory.clear()] *)
Definition clear_memory (agent : LogisticsAIAgent) : LogisticsAIAgent :=
  mkAgent [].

(* ===================================================================== *)
(** ** The AI endpoints ([app/routers/ai.py], [app/schemas/ai.py]) *)
(* ===================================================================== *)

(** The module-level [_ai_agent]: [None] until the first request. *)
Record Process : Type := mkProcess { _ai_agent : option LogisticsAIAgent }.

Definition get_ai_agent (p : Process) : LogisticsAIAgent * Process :=
  match _ai_agent p with
  | Some agent => (agent, p)
  | None => (new_agent, mkProcess (Some new_agent))
  end.

Record ChatRequest : Type := mkChatRequest {
  req_message : string;
  req_conversation_id : option string
}.

Record ChatResponse : Type := mkChatResponse {
  resp_message : string;
  resp_conversation_id : string;
  resp_tokens_used : option Z;
  resp_sources : option (list PyVal)
}.

Definition validation_error (field : string) : Exn :=
  mkExn "ValidationError" ("1 validation error for ChatResponse: " ++ field).

Definition is_dict (v : PyVal) : bool :=
  match v with VDict _ => true | _ => false end.

(** Building a [ChatResponse] from the keys of [response]: the declared fields are read and checked,
    keys that are not fields of the schema are dropped. *)
Definition make_ChatResponse (response : Dict) : result ChatResponse :=
  msg <- match get response "message" with
         | Some (VStr s) => Ok s
         | _ => Raise (validation_error "message")
         end ;;
  cid <- match get response "conversation_id" with
         | Some (VStr s) => Ok s
         | _ => Raise (validation_error "conversation_id")
         end ;;
  tokens <- match get response "tokens_used" with
            | None | Some VNone => Ok None
            | Some (VInt z) => Ok (Some z)
            | Some _ => Raise (validation_error "tokens_used")
            end ;;
  sources <- match get response "sources" with
             | None | Some VNone => Ok None
             | Some (VList items) =>
                 if forallb is_dict items then Ok (Some items)
                 else Raise (validation_error "sources")
             | Some _ => Raise (validation_error "sources")
             end ;;
  Ok (mkChatResponse msg cid tokens sources).

(** [POST /chat] *)
Definition chat_with_ai (executor : Executor) (p : Process) (request : ChatRequest)
  : Http ChatResponse * Process :=
  let (agent, p1) := get_ai_agent p in
  let (response, agent') :=
    chat executor agent (req_message request) (req_conversation_id request) in
  (match (r <- response ;; make_ChatResponse r) with
   | Ok body => Response body
   | Raise e => HTTPException 500 ("Error processing chat request: " ++ str_exn e)
   end,
   mkProcess (Some agent')).

(** [DELETE /conversation/{conversation_id}] *)
Definition clear_conversation (p : Process) (conversation_id : string)
  : Http Dict * Process :=
  let (agent, p1) := get_ai_agent p in
  (Response [ ("message", VStr ("Conversation " ++ conversation_id ++ " cleared"));
              ("conversation_id", VStr conversation_id) ],
   mkProcess (Some (clear_memory agent))).

(** The turns a chat request is answered from: [chat] hands the executor
    the memory of the process-wide agent. *)
Definition history (p : Process) : History := memory (fst (get_ai_agent p)).

(* ===================================================================== *)
(** ** The retrieval subsystem ([app/ai/rag.py]) *)
(* ===================================================================== *)

Record Document : Type := mkDocument {
  page_content : string;
  metadata : Dict
}.

(** The vector index: its chunks, in insertion order. *)
Definition VectorStore : Type := list Document.

(** The external capabilities the subsystem calls.  [split_text] is the
    [RecursiveCharacterTextSplitter] configured with [chunk_size=1000],
    [chunk_overlap=200] and the separators paragraph, line, space;
    [embed_documents] is the embedding call made when chunks are
    inserted; [similarity_search] is the index query (it embeds the query
    first); [llm_answer] is the model call of the stuff chain. *)
Record Services : Type := mkServices {
  split_text : string -> list string;
  embed_documents : list string -> result unit;
  similarity_search : VectorStore -> string -> nat -> result (list Document);
  llm_answer : string -> list Document -> result string
}.

(** [chunk_size=1000], [chunk_overlap=200] of the text splitter;
    [length_function=len] counts characters. *)
Definition chunk_size : nat := 1000.
Definition chunk_overlap : nat := 200.

(** [search_kwargs={"k": 4}] of the retriever inside [qa_chain]. *)
Definition retriever_k : nat := 4.

(** The configured documents directory as initialization finds it: not
    there (with the outcome of creating it and writing the sample
    manual), or there (with what the PDF loader and the text loader
    return or raise on it). *)
Inductive DocsDir : Type :=
| Absent (creation : result unit)
| Existing (pdf_load txt_load : result (list Document)).

(** What initialization finds on disk: the persisted collection
    [Chroma(persist_directory=...)] opens (or the fault it raises) and the
    documents directory. *)
Record Disk : Type := mkDisk {
  persisted : result VectorStore;
  docs_dir : DocsDir
}.

Definition sample_content : string :=
"
# Logistics Operations Manual

## Shipment Handling Procedures

### Standard Shipping
- Packages under 25kg can be shipped via standard ground service
- Estimated delivery time: 3-5 business days
- Cost: $10 base + $2.50 per kg

### Express Shipping
- Available for urgent deliveries
- Packages delivered within 1-2 business days
- Cost: $25 base + $5 per kg

### International Shipping
- Requires customs documentation
- Estimated delivery: 7-14 business days
- Additional fees apply based on destination

## Warehouse Operations

### Safety Procedures
1. Always wear safety equipment in warehouse areas
2. Follow proper lifting techniques for packages over 10kg
3. Report any damaged items immediately

### Storage Guidelines
- Fragile items must be marked clearly
- Hazardous materials require special storage
- Maximum stack height: 3 meters

## Customer Service

### Tracking Issues
If a customer cannot track their shipment:
1. Verify tracking number format
2. Check system for status updates
3. Contact warehouse if no updates for 48+ hours

### Damaged Packages
1. Document damage with photos
2. File insurance claim within 24 hours
3. Arrange replacement shipment

### Delivery Delays
Common causes:
- Weather conditions
- Traffic and road closures
- Customs clearance (international)
- Address verification issues

## Emergency Procedures

### Lost Shipments
1. Search warehouse and transit records
2. Contact last known location
3. File incident report
4. Initiate investigation within 48 hours

### Hazardous Spills
1. Evacuate immediate area
2. Contact emergency services
3. Follow Material Safety Data Sheet protocols
".

(** The file [_create_sample_documents] writes, as the text loader reads
    it back. *)
Definition operations_manual : Document :=
  mkDocument sample_content [("source", VStr "docs/operations_manual.txt")].

(** [_create_sample_documents]: creating the directory and the file can
    raise; afterwards the PDF loader finds nothing in the directory and
    the text loader finds the one manual. *)
Definition _create_sample_documents (creation : result unit)
  : result (result (list Document) * result (list Document)) :=
  _ <- creation ;; Ok (Ok [], Ok [operations_manual]).

Definition _get_sample_documents : list Document :=
  [ mkDocument
"Shipping Policy: Standard shipments take 3-5 business days. 
                Express shipping available for 1-2 day delivery. International shipments require 
                7-14 business days and customs documentation."
      [("source", VStr "shipping_policy")];
    mkDocument
"Warehouse Safety: Always wear protective equipment. 
                Use proper lifting techniques for heavy packages. Report damaged items immediately."
      [("source", VStr "safety_manual")] ].

(** [text_splitter.split_documents(documents)]: every chunk keeps the
    metadata of the document it was cut from. *)
Definition split_documents (sv : Services) (documents : list Document)
  : list Document :=
  flat_map (fun d => map (fun text => mkDocument text (metadata d))
                         (split_text sv (page_content d)))
           documents.

(** [Chroma.from_documents(documents=splits, ...)]: the chunks are
    embedded and inserted in order.  The vector database refuses an
    insertion of nothing: with no chunk at all the call raises (the text
    of the exception is the database's). *)
Definition from_documents (sv : Services) (splits : list Document)
  : result VectorStore :=
  _ <- embed_documents sv (map page_content splits) ;;
  match splits with
  | [] => Raise (mkExn "ValueError" "Expected IDs to be a non-empty list")
  | _ :: _ => Ok splits
  end.

Definition _load_documents_to_vector_store (sv : Services) (dir : DocsDir)
  : result VectorStore :=
  loaders <- match dir with
             | Absent creation => _create_sample_documents creation
             | Existing pdf_load txt_load => Ok (pdf_load, txt_load)
             end ;;
  documents <-
    try_except
      (pdfs <- fst loaders ;;
       txts <- snd loaders ;;
       Ok (pdfs ++ txts)%list)
      (fun e => Ok _get_sample_documents) ;;
  let splits := split_documents sv documents in
  from_documents sv splits.

Definition _initialize_vector_store (sv : Services) (disk : Disk)
  : result VectorStore :=
  try_except
    (vector_store <- persisted disk ;;
     if (0 <? length vector_store)%nat then Ok vector_store
     else _load_documents_to_vector_store sv (docs_dir disk))
    (fun e => _load_documents_to_vector_store sv (docs_dir disk)).

(** The state of a [LogisticsRAG]: its vector store (the QA chain built
    over it holds no state of its own). *)
Record LogisticsRAG : Type := mkRAG { vector_store : VectorStore }.

(** [LogisticsRAG()] *)
Definition init_rag (sv : Services) (disk : Disk) : result LogisticsRAG :=
  vs <- _initialize_vector_store sv disk ;; Ok (mkRAG vs).

(** [qa_chain.ainvoke({"query": query})]: the retriever fetches
    [retriever_k] chunks, the model answers from them, and both are
    returned ([return_source_documents=True]). *)
Definition qa_chain_ainvoke (sv : Services) (rag : LogisticsRAG) (query : string)
  : result (string * list Document) :=
  source_documents <- similarity_search sv (vector_store rag) query retriever_k ;;
  answer <- llm_answer sv query source_documents ;;
  Ok (answer, source_documents).

(** [d.get(key, default)] *)
Definition get_default (d : Dict) (key : string) (default : PyVal) : PyVal :=
  match get d key with
  | Some v => v
  | None => default
  end.

Definition search_apology : string :=
  "I apologize, but I encountered an error searching the documentation.".

Definition search (sv : Services) (rag : LogisticsRAG) (query : string) (top_k : nat)
  : result Dict :=
  try_except
    (docs <- similarity_search sv (vector_store rag) query top_k ;;
     qa <- qa_chain_ainvoke sv rag query ;;
     Ok [ ("query", VStr query);
          ("answer", VStr (fst qa));
          ("results",
           VList (map (fun doc =>
                         VDict [ ("content", VStr (page_content doc));
                                 ("source",
                                  get_default (metadata doc) "source" (VStr "unknown"));
                                 ("page", get_default (metadata doc) "page" VNone) ])
                      (snd qa))) ])
    (fun e =>
       Ok [ ("query", VStr query);
            ("answer", VStr search_apology);
            ("results", VList []);
            ("error", VStr (str_exn e)) ]).

Definition simple_search (sv : Services) (rag : LogisticsRAG) (query : string)
    (top_k : nat) : result (list PyVal) :=
  try_except
    (docs <- similarity_search sv (vector_store rag) query top_k ;;
     Ok (map (fun doc =>
                VDict [ ("content", VStr (page_content doc));
                        ("source",
                         get_default (metadata doc) "source" (VStr "unknown"));
                        ("relevance_score", VNone) ])
             docs))
    (fun e => Ok []).

Definition is_user (t : Turn) : bool :=
  match role t with user => true | _ => false end.

(** How the library's executor uses the buffer memory it was built with
    ([memory=self.memory]): the context of a run is saved when the run
    returns, the user's message first and then what the run generated,
    which holds no user turn; a run that raises saves nothing. *)
Definition saves_completed_runs (executor : Executor) : Prop :=
  forall (h : History) (message : string),
    match fst (executor h message) with
    | Ok _ =>
        exists generated : list Turn,
          snd (executor h message) = (h ++ mkTurn user message :: generated)%list
          /\ filter is_user generated = []
    | Raise _ => snd (executor h message) = h
    end.



(** The directory is there and the loaders find no document in it. *)
Definition is_empty_dir (dir : DocsDir) : bool :=
  match dir with
  | Existing (Ok []) (Ok []) => true
  | _ => false
  end.

(** No index with chunks was persisted by an earlier run. *)
Definition no_persisted_chunks (disk : Disk) : bool :=
  match persisted disk with
  | Ok [] => true
  | Ok (_ :: _) => false
  | Raise _ => true
  end.


(* ===================================================================== *)
(** ** The streaming and query endpoints ([app/routers/ai.py]) *)
(* ===================================================================== *)

(** [range(start, stop, step)] for a positive [step]: [stop] iterations
    are enough. *)
Fixpoint range_from (fuel start stop step : nat) : list nat :=
  match fuel with
  | 0 => []
  | S fuel' =>
      if (start <? stop)%nat
      then start :: range_from fuel' (start + step) stop step
      else []
  end.

Definition range (start stop step : nat) : list nat :=
  range_from stop start stop step.

(** [s[i:j]] for [i <= j]; the slice stops at the end of [s]. *)
Definition slice (s : string) (i j : nat) : string := substring i (j - i) s.

(** [chunk_size = 20] of the simulated stream. *)
Definition stream_chunk_size : nat := 20.

(** What one server-sent event carries. *)
Inductive StreamPayload : Type :=
| chunk_payload (chunk : string)
| done_payload
| error_payload (error : string).

(** The payloads [generate_stream] yields: the message of the chat
    response in slices of [stream_chunk_size] characters, then the final
    event; a missing message or an exception gives the one error event. *)
Definition stream_payloads (response : result Dict) : list StreamPayload :=
  match
    (r <- response ;;
     match get r "message" with
     | Some (VStr message) =>
         Ok (map (fun i => chunk_payload
                             (slice message i (i + stream_chunk_size)))
                 (range 0 (String.length message) stream_chunk_size)
             ++ [done_payload])%list
     | Some _ => Raise (mkExn "TypeError" "object has no len()")
     | None => Raise (mkExn "KeyError" "'message'")
     end)
  with
  | Ok payloads => payloads
  | Raise e => [error_payload (str_exn e)]
  end.

(** [POST /chat/stream]: each payload goes out as
    [data: <json.dumps(payload)>] followed by an empty line;
    [json_dumps] is the library's serialization. *)
Definition chat_with_ai_stream (json_dumps : StreamPayload -> string)
    (executor : Executor) (p : Process) (request : ChatRequest)
  : list string * Process :=
  let (agent, p1) := get_ai_agent p in
  let (response, agent') :=
    chat executor agent (req_message request) (req_conversation_id request) in
  (map (fun payload => "data: " ++ json_dumps payload ++ nl ++ nl)
       (stream_payloads response),
   mkProcess (Some agent')).

Record ShipmentQueryResponse : Type := mkShipmentQueryResponse {
  sq_query : string;
  sq_answer : string;
  sq_shipments : option (list PyVal);
  sq_action_taken : option string
}.

(** [POST /query/shipment] *)
Definition natural_language_shipment_query (executor : Executor) (p : Process)
    (query : string) : Http ShipmentQueryResponse * Process :=
  let (agent, p1) := get_ai_agent p in
  let (response, agent') :=
    chat executor agent
         ("Search and analyze shipments based on this query: " ++ query) None in
  (match
     (r <- response ;;
      match get r "message" with
      | Some (VStr answer) =>
          Ok (mkShipmentQueryResponse query answer None
                (Some "Searched shipments database"))
      | Some _ =>
          Raise (mkExn "ValidationError"
                   "1 validation error for ShipmentQueryResponse: answer")
      | None => Raise (mkExn "KeyError" "'message'")
      end)
   with
   | Ok body => Response body
   | Raise e =>
       HTTPException 500 ("Error processing shipment query: " ++ str_exn e)
   end,
   mkProcess (Some agent')).

(* ===================================================================== *)
(** ** The retrieval singleton, its endpoint and [add_documents]
       ([app/ai/rag.py], [app/routers/ai.py]) *)
(* ===================================================================== *)

(** The module-level [_rag_instance]: [None] until an initialization
    succeeds. *)
Record RagProcess : Type := mkRagProcess { _rag_instance : option LogisticsRAG }.

(** [get_rag_system()]: the instance, or the exception of
    [LogisticsRAG()], and the module state afterwards. *)
Definition get_rag_system (sv : Services) (disk : Disk) (p : RagProcess)
  : result LogisticsRAG * RagProcess :=
  match _rag_instance p with
  | Some rag => (Ok rag, p)
  | None =>
      match init_rag sv disk with
      | Ok rag => (Ok rag, mkRagProcess (Some rag))
      | Raise e => (Raise e, p)
      end
  end.

Record DocumentSearchRequest : Type := mkDocumentSearchRequest {
  dq_query : string;
  dq_top_k : nat
}.

Record DocumentSearchResponse : Type := mkDocumentSearchResponse {
  ds_query : string;
  ds_results : list PyVal;
  ds_answer : option string
}.

Definition search_validation_error (field : string) : Exn :=
  mkExn "ValidationError"
        ("1 validation error for DocumentSearchResponse: " ++ field).

(** Building a [DocumentSearchResponse] from the keys of [result]: the
    declared fields are read and checked, other keys are dropped. *)
Definition make_DocumentSearchResponse (response : Dict)
  : result DocumentSearchResponse :=
  query <- match get response "query" with
           | Some (VStr s) => Ok s
           | _ => Raise (search_validation_error "query")
           end ;;
  results <- match get response "results" with
             | Some (VList items) =>
                 if forallb is_dict items then Ok items
                 else Raise (search_validation_error "results")
             | _ => Raise (search_validation_error "results")
             end ;;
  answer <- match get response "answer" with
            | None | Some VNone => Ok None
            | Some (VStr s) => Ok (Some s)
            | Some _ => Raise (search_validation_error "answer")
            end ;;
  Ok (mkDocumentSearchResponse query results answer).

(** [POST /search] *)
Definition search_documentation (sv : Services) (disk : Disk) (p : RagProcess)
    (request : DocumentSearchRequest)
  : Http DocumentSearchResponse * RagProcess :=
  let (instance, p') := get_rag_system sv disk p in
  (match
     (rag <- instance ;;
      found <- search sv rag (dq_query request) (dq_top_k request) ;;
      make_DocumentSearchResponse found)
   with
   | Ok body => Response body
   | Raise e =>
       HTTPException 500 ("Error searching documentation: " ++ str_exn e)
   end,
   p').

(** [GET /health] of the AI router: both singletons are fetched (and
    created when missing); a fault is reported in the body, not raised. *)
Definition ai_health_check (sv : Services) (disk : Disk)
    (p : Process) (rp : RagProcess) : Dict * Process * RagProcess :=
  let (agent, p') := get_ai_agent p in
  let (instance, rp') := get_rag_system sv disk rp in
  (match instance with
   | Ok _ =>
       [ ("status", VStr "healthy");
         ("openai", VStr "connected");
         ("vector_store", VStr "active");
         ("agent", VStr "initialized") ]
   | Raise e =>
       [ ("status", VStr "unhealthy"); ("error", VStr (str_exn e)) ]
   end,
   p', rp').

(** [vector_store.add_documents(documents)]: the new chunks are embedded
    and appended to the index. *)
Definition vector_store_add (sv : Services) (vs : VectorStore)
    (documents : list Document) : result VectorStore :=
  _ <- embed_documents sv (map page_content documents) ;;
  Ok (vs ++ documents)%list.

(** [rag.add_documents(texts, metadatas)]: the texts are paired with
    their metadata by [zip] ([metadatas or [{}] * len(texts)]: a missing or
    empty list stands for one empty dictionary per text) and added as
    they are; a fault is logged, not raised. *)
Definition add_documents (sv : Services) (rag : LogisticsRAG)
    (texts : list string) (metadatas : option (list Dict)) : LogisticsRAG :=
  let metas :=
    match metadatas with
    | Some (m :: ms) => m :: ms
    | Some [] | None => repeat [] (length texts)
    end in
  let documents :=
    map (fun tm => mkDocument (fst tm) (snd tm)) (combine texts metas) in
  match vector_store_add sv (vector_store rag) documents with
  | Ok vs => mkRAG vs
  | Raise e => rag
  end.

(* ===================================================================== *)
(** ** Shipment endpoints ([app/routers/shipments.py],
       [app/schemas/shipment.py], [app/models/user.py]) *)
(* ===================================================================== *)

Inductive UserRole : Type := ADMIN | MANAGER | DRIVER | CUSTOMER.

(** [role.value] *)
Definition role_value (r : UserRole) : string :=
  match r with
  | ADMIN => "admin"
  | MANAGER => "manager"
  | DRIVER => "driver"
  | CUSTOMER => "customer"
  end.

(** The columns of [User] the shipment endpoints read. *)
Record User : Type := mkUser { user_id : Z; user_role : UserRole }.

(** [current_user.role.value in ["admin", "manager"]] *)
Definition sees_all_shipments (u : User) : bool :=
  existsb (String.eqb (role_value (user_role u))) ["admin"; "manager"].

(** A row of the shipments table as the endpoints see it: the columns
    the tools read, and the keys. *)
Record ShipmentRow : Type := mkShipmentRow {
  shipment_id : Z;
  customer_id : Z;
  driver_id : option Z;
  created_at : datetime;
  columns : Shipment
}.

(** [Shipment.status == status] for two members of the enumeration. *)
Definition status_eqb (a b : ShipmentStatus) : bool :=
  String.eqb (status_value a) (status_value b).

(** [query.filter(Shipment.customer_id == current_user.id)], applied
    unless the caller is an admin or a manager. *)
Definition visible_to (current_user : User) (query : list ShipmentRow)
  : list ShipmentRow :=
  if negb (sees_all_shipments current_user)
  then filter (fun r => Z.eqb (customer_id r) (user_id current_user)) query
  else query.

(** The query [list_shipments] builds: each filter that is given, then
    the restriction to the caller's own shipments. *)
Definition list_query (rows : list ShipmentRow) (current_user : User)
    (status_ : option ShipmentStatus)
    (origin_ destination_ tracking_ : option string) : list ShipmentRow :=
  let q1 :=
    match status_ with
    | Some wanted => filter (fun r => status_eqb (status (columns r)) wanted) rows
    | None => rows
    end in
  let q2 :=
    match given origin_ with
    | Some wanted =>
        filter (fun r => ilike (origin (columns r)) ("%" ++ wanted ++ "%")) q1
    | None => q1
    end in
  let q3 :=
    match given destination_ with
    | Some wanted =>
        filter (fun r => ilike (destination (columns r)) ("%" ++ wanted ++ "%")) q2
    | None => q2
    end in
  let q4 :=
    match given tracking_ with
    | Some wanted =>
        filter (fun r => ilike (tracking_number (columns r)) ("%" ++ wanted ++ "%")) q3
    | None => q3
    end in
  visible_to current_user q4.

Record ShipmentPage : Type := mkShipmentPage {
  items : list ShipmentRow;
  total : nat;
  page : nat;
  size : nat;
  pages : nat
}.

(** [GET /]: what the endpoint function returns.  [skip] and [limit] are
    the validated query parameters ([skip >= 0], [1 <= limit <= 100]);
    dividing by a zero [limit] raises.  The response the framework builds
    from the returned page (through [response_model=ShipmentListResponse])
    is not part of this function and not modelled. *)
Definition list_shipments (rows : list ShipmentRow) (current_user : User)
    (skip limit_ : nat) (status_ : option ShipmentStatus)
    (origin_ destination_ tracking_ : option string) : result ShipmentPage :=
  let query := list_query rows current_user status_ origin_ destination_ tracking_ in
  let total_ := length query in
  let shipments_ := firstn limit_ (skipn skip query) in
  pages_ <-
    (if (0 <? total_)%nat
     then
       if (limit_ =? 0)%nat
       then Raise (mkExn "ZeroDivisionError" "integer division or modulo by zero")
       else Ok ((total_ + limit_ - 1) / limit_)
     else Ok 0) ;;
  let current_page := if (0 <? limit_)%nat then skip / limit_ + 1 else 1 in
  Ok (mkShipmentPage shipments_ total_ current_page limit_ pages_).

(** The items of an answer of [list_shipments], none when it raised. *)
Definition items_of (answer : result ShipmentPage) : list ShipmentRow :=
  match answer with
  | Ok p => items p
  | Raise _ => []
  end.

(** [db.query(Shipment).filter(Shipment.id == shipment_id).first()] *)
Definition shipment_by_id (rows : list ShipmentRow) (id : Z) : option ShipmentRow :=
  first (filter (fun r => Z.eqb (shipment_id r) id) rows).

(** [db.delete(shipment)] for the row found by its id. *)
Fixpoint delete_row (rows : list ShipmentRow) (id : Z) : list ShipmentRow :=
  match rows with
  | [] => []
  | r :: rest =>
      if Z.eqb (shipment_id r) id then rest else r :: delete_row rest id
  end.

(** [DELETE /{shipment_id}]: the answer and the table afterwards. *)
Definition delete_shipment (rows : list ShipmentRow) (current_user : User) (id : Z)
  : Http Dict * list ShipmentRow :=
  if negb (String.eqb (role_value (user_role current_user)) "admin")
  then (HTTPException 403 "Not authorized to delete shipments", rows)
  else
    match shipment_by_id rows id with
    | None =>
        (HTTPException 404 ("Shipment with ID " ++ str_int id ++ " not found"),
         rows)
    | Some shipment =>
        (Response [("message", VStr "Shipment deleted successfully")],
         delete_row rows id)
    end.

(** A field of [ShipmentUpdate] as [dict(exclude_unset=True)] sees it:
    left out of the request, or set (possibly to null). *)
Inductive Field (A : Type) : Type :=
| unset
| set_to (value : option A).
Arguments unset {A}.
Arguments set_to {A} value.

Record ShipmentUpdate : Type := mkShipmentUpdate {
  upd_status : Field ShipmentStatus;
  upd_current_location : Field string;
  upd_driver_id : Field Z;
  upd_estimated_delivery : Field datetime;
  upd_actual_delivery : Field datetime
}.

(** [shipment_update.<field>]: the value set, [None] otherwise. *)
Definition field_value {A : Type} (f : Field A) : option A :=
  match f with
  | unset => None
  | set_to value => value
  end.

(** [setattr(shipment, field, value)] for a nullable column. *)
Definition assign {A : Type} (f : Field A) (old : option A) : option A :=
  match f with
  | unset => old
  | set_to value => value
  end.

(** [for field, value in update_data.items(): setattr(...)], then the
    delivery rule.  [status] is not nullable: a null status cannot be
    stored, the commit raises (the text of the exception stands for the
    database driver's).  [estimated_delivery] is no column of the model
    (it has [stimated_delivery]), so setting it changes no stored
    value. *)
Definition apply_update (now : datetime) (update : ShipmentUpdate)
    (shipment : ShipmentRow) : result ShipmentRow :=
  new_status <-
    match upd_status update with
    | unset => Ok (status (columns shipment))
    | set_to (Some s) => Ok s
    | set_to None =>
        Raise (mkExn "IntegrityError" "NOT NULL constraint failed: shipments.status")
    end ;;
  let location := assign (upd_current_location update)
                         (current_location (columns shipment)) in
  let driver := assign (upd_driver_id update) (driver_id shipment) in
  let delivered_at := assign (upd_actual_delivery update)
                             (actual_delivery (columns shipment)) in
  let delivered_at :=
    match field_value (upd_status update), delivered_at with
    | Some DELIVERED, None => Some now
    | _, _ => delivered_at
    end in
  Ok (mkShipmentRow (shipment_id shipment) (customer_id shipment) driver
        (created_at shipment)
        (mkShipment (tracking_number (columns shipment))
           (origin (columns shipment)) (destination (columns shipment))
           location new_status (stimated_delivery (columns shipment))
           delivered_at)).

(** The row with the id of [changed] replaced by it. *)
Fixpoint store_row (rows : list ShipmentRow) (changed : ShipmentRow)
  : list ShipmentRow :=
  match rows with
  | [] => []
  | r :: rest =>
      if Z.eqb (shipment_id r) (shipment_id changed) then changed :: rest
      else r :: store_row rest changed
  end.

(** [PATCH /{shipment_id}]: what the endpoint function returns or raises,
    and the table afterwards.  [commit] is the database accepting or
    refusing the changed row (its foreign keys and other constraints).
    The response the framework builds from a returned row (through
    [response_model=ShipmentResponse], after the commit) is not part of
    this function and not modelled: a row returned here can still end in
    an error response, with the change stored. *)
Definition update_shipment (commit : ShipmentRow -> result unit) (now : datetime)
    (rows : list ShipmentRow) (current_user : User) (id : Z)
    (update : ShipmentUpdate) : result (Http ShipmentRow) * list ShipmentRow :=
  if negb (sees_all_shipments current_user)
  then (Ok (HTTPException 403 "Not authorized to update shipments"), rows)
  else
    match shipment_by_id rows id with
    | None =>
        (Ok (HTTPException 404 ("Shipment with ID " ++ str_int id ++ " not found")),
         rows)
    | Some shipment =>
        match (changed <- apply_update now update shipment ;;
               _ <- commit changed ;; Ok changed) with
        | Ok changed => (Ok (Response changed), store_row rows changed)
        | Raise e => (Raise e, rows)
        end
    end.

Record ShipmentStatistics : Type := mkShipmentStatistics {
  total_shipments : nat;
  pending_count : nat;
  in_transit_count : nat;
  delivered_count : nat;
  delayed_count : nat;
  recent_shipments_7days : nat
}.

Definition count_status (rows : list ShipmentRow) (wanted : ShipmentStatus) : nat :=
  length (filter (fun r => status_eqb (status (columns r)) wanted) rows).

(** [GET /statistics/overview] *)
Definition get_shipment_statistics (now : datetime) (rows : list ShipmentRow)
    (current_user : User) : ShipmentStatistics :=
  let query := visible_to current_user rows in
  let week_ago := (now - 7 * seconds_per_day)%Z in
  mkShipmentStatistics
    (length query)
    (count_status query PENDING)
    (count_status query IN_TRANSIT)
    (count_status query DELIVERED)
    (count_status query DELAYED)
    (length (filter (fun r => (week_ago <=? created_at r)%Z) query)).

(** Sample rows: two shipments of customer 7, one of customer 8. *)
Definition demo_rows : list ShipmentRow :=
  [ mkShipmentRow 1 7 None 0%Z
      (mkShipment "TRACK1" "Chicago" "Boston" None IN_TRANSIT None None);
    mkShipmentRow 2 8 (Some 3%Z) 0%Z
      (mkShipment "TRACK2" "Austin" "Chicago" (Some "Memphis") PICKED_UP None None);
    mkShipmentRow 3 7 None 0%Z
      (mkShipment "TRACK3" "Denver" "Miami" None PENDING None None) ].

Definition customer_7 : User := mkUser 7 CUSTOMER.
Definition manager_1 : User := mkUser 1 MANAGER.

(* ===================================================================== *)
(** ** Sample inputs used in the properties *)
(* ===================================================================== *)

(** Formatting functions that ignore their argument. *)
Definition plain_formatting : Formatting :=
  mkFormatting (fun _ _ => "0.0") (fun _ => "0.0") (fun _ _ => "2024-01-01").

(** A backend that compares the status column with the value of the
    enumeration member. *)
Definition value_binding (wanted : string) : result (ShipmentStatus -> bool) :=
  Ok (fun s => String.eqb (status_value s) wanted).

(** Two shipments and two warehouses; the second warehouse has a NULL
    utilization. *)
Definition demo_db : Database :=
  mkDatabase
    [ mkShipment "TRACK1" "Chicago" "Boston" None IN_TRANSIT None None;
      mkShipment "TRACK2" "Austin" "chicago" (Some "Memphis") DELIVERED None (Some 0%Z) ]
    [ mkWarehouse "Lakeside" "Chicago" "IL" 100 (Some 40%Z) (Some "555-0100");
      mkWarehouse "Harbor" "Boston" "MA" 50 None None ]
    value_binding.

(** The store reachable, and the store down. *)
Definition demo_env : Env := mkEnv (Available demo_db) 0%Z plain_formatting.

Definition down_env : Env :=
  mkEnv (Unavailable (mkExn "OperationalError" "connection refused")) 0%Z
        plain_formatting.

(** An executor that answers with the number of turns it was handed and
    records the exchange; used to run the agent on concrete inputs. *)
Definition counting_executor : Executor :=
  fun h message =>
    let answer := "turns seen: " ++ str_int (Z.of_nat (length h)) in
    (Ok (mkFinish answer []),
     (h ++ [mkTurn user message; mkTurn assistant answer])%list).

(** An executor whose model call fails: it raises and leaves the memory
    as it was. *)
Definition failing_executor : Executor :=
  fun h message =>
    (Raise (mkExn "APIConnectionError" "Connection error: api.openai.com:443"), h).

(** The text the executor returns as its output when it stops a run at
    one of its caps ([max_iterations], [max_execution_time]). *)
Definition stop_text : string := "Agent stopped due to max iterations.".

(** An executor whose run is stopped at a cap after one tool call: it
    does not raise, it returns the stop text with the step made so far,
    and the exchange is saved. *)
Definition stopping_executor : Executor :=
  fun h message =>
    (Ok (mkFinish stop_text
           [mkStep "get_shipment_status" "TRACK1"
              "Shipment with tracking number TRACK1 not found. Please verify the tracking number and try again."]),
     (h ++ [mkTurn user message; mkTurn assistant stop_text])%list).

(** The message of the body an endpoint answers with, if it answers
    with a body. *)
Definition resp_message_of (answer : Http ChatResponse) : option string :=
  match answer with
  | Response body => Some (resp_message body)
  | HTTPException _ _ => None
  end.

(** The turns of a conversation held under the identifier [B]. *)
Definition conversation_B : History :=
  [ mkTurn user "Where is TRACK1?"; mkTurn assistant "turns seen: 0" ].

(** Services used to run the subsystem on concrete inputs: every text is
    one chunk, embedding succeeds, all chunks are equally near to every
    query (ties go by insertion order) and the model returns a fixed
    answer. *)
Definition insertion_order_services : Services :=
  mkServices
    (fun text => [text])
    (fun _ => Ok tt)
    (fun vs _ k => Ok (firstn k vs))
    (fun _ _ => Ok "Wear protective equipment and lift properly.").

(** The same with the embedding service down. *)
Definition embedding_down_services : Services :=
  mkServices
    (fun text => [text])
    (fun _ => Raise (mkExn "AuthenticationError" "No API key provided"))
    (fun _ _ _ => Raise (mkExn "AuthenticationError" "No API key provided"))
    (fun _ _ => Ok "Wear protective equipment and lift properly.").

(** The dictionary of the [except] branch of [search]. *)
Definition search_failure (query : string) (e : Exn) : Dict :=
  [ ("query", VStr query);
    ("answer", VStr search_apology);
    ("results", VList []);
    ("error", VStr (str_exn e)) ].

(** The index holding the two built-in sample documents. *)
Definition fallback_rag : LogisticsRAG := mkRAG _get_sample_documents.

(** How many chunks an answer of [search] or [simple_search] holds. *)
Definition result_count (response : result Dict) : option nat :=
  match response with
  | Ok d => match get d "results" with
            | Some (VList items) => Some (length items)
            | _ => None
            end
  | Raise _ => None
  end.

Definition hit_count (hits : result (list PyVal)) : option nat :=
  match hits with
  | Ok items => Some (length items)
  | Raise _ => None
  end.

(* ===================================================================== *)
(** * Properties *)
(* ===================================================================== *)

(** ** Error handling: a handler that returns makes the block return *)

Lemma try_except_returns {A : Type} (body : result A) (handler : Exn -> result A) :
  (forall e, exists a, handler e = Ok a) ->
  exists a, try_except body handler = Ok a.
Proof.
  intros Hh. destruct body as [a | e]; simpl.
  - now exists a.
  - apply Hh.
Qed.

(** ** Letter case *)

Ltac each_ascii c := destruct c as [[] [] [] [] [] [] [] []].

Lemma upper_char_idem (c : ascii) : upper_char (upper_char c) = upper_char c.
Proof. each_ascii c; reflexivity. Qed.


Lemma lower_char_idem (c : ascii) : lower_char (lower_char c) = lower_char c.
Proof. each_ascii c; reflexivity. Qed.

Lemma lower_char_upper_char (c : ascii) : lower_char (upper_char c) = lower_char c.
Proof. each_ascii c; reflexivity. Qed.

Lemma same_letter_cases (c d : ascii) :
  same_letter c d = true -> d = c \/ d = upper_char c \/ d = lower_char c.
Proof.
  unfold same_letter. intros H.
  apply orb_true_iff in H as [H | H]; [apply orb_true_iff in H as [H | H] |].
  - apply Ascii.eqb_eq in H. now left.
  - apply andb_true_iff in H as [_ H]. apply Ascii.eqb_eq in H. now right; left.
  - apply andb_true_iff in H as [_ H]. apply Ascii.eqb_eq in H. now right; right.
Qed.


Lemma same_letter_lower (c d : ascii) :
  same_letter c d = true -> lower_char c = lower_char d.
Proof.
  intros H. destruct (same_letter_cases _ _ H) as [-> | [-> | ->]].
  - reflexivity.
  - now rewrite lower_char_upper_char.
  - now rewrite lower_char_idem.
Qed.


Lemma differ_only_in_case_lower (s : string) :
  forall t, differ_only_in_case s t = true -> lower s = lower t.
Proof.
  induction s as [| c s IH]; intros [| d t] H; simpl in H; try discriminate.
  - reflexivity.
  - apply andb_true_iff in H as [Hc Hs]. unfold lower; simpl.
    rewrite (same_letter_lower _ _ Hc). f_equal. now apply IH.
Qed.





(** ** The tool registry *)

Section ToolRegistry.

Variable env : Env.

Lemma get_shipment_status_returns (tracking : string) :
  exists answer, get_shipment_status env tracking = Ok answer.
Proof. apply try_except_returns. intros e. eauto. Qed.

Lemma calculate_shipping_cost_returns (o d : string) (w : float) :
  exists answer, calculate_shipping_cost env o d w = Ok answer.
Proof. apply try_except_returns. intros e. eauto. Qed.

Lemma find_nearest_warehouse_returns (location : string) :
  exists answer, find_nearest_warehouse env location = Ok answer.
Proof. apply try_except_returns. intros e. eauto. Qed.

Lemma estimate_delivery_time_returns (tracking : string) :
  exists answer, estimate_delivery_time env tracking = Ok answer.
Proof. apply try_except_returns. intros e. eauto. Qed.

Lemma search_shipments_returns (s o d : option string) :
  exists answer, search_shipments env s o d = Ok answer.
Proof. apply try_except_returns. intros e. eauto. Qed.

End ToolRegistry.

(** Every call names a registered tool, and every registered name has
    calls. *)
Lemma tool_name_registered (c : ToolCall) : In (tool_name c) tools.
Proof. destruct c; simpl; auto 6. Qed.

Lemma registered_has_call (n : string) :
  In n tools -> exists c, tool_name c = n.
Proof.
  simpl. intros [<- | [<- | [<- | [<- | [<- | []]]]]].
  - now exists (call_get_shipment_status "").
  - now exists (call_calculate_shipping_cost "" "" 0%float).
  - now exists (call_find_nearest_warehouse "").
  - now exists (call_estimate_delivery_time "").
  - now exists (call_search_shipments None None None).
Qed.

(** C3: for every registered tool and any arguments, whatever the state of
    the store (reachable or failing, record present or not), invoking the
    handler returns a string: no exception leaves the handler. *)
Theorem invoke_returns_string (env : Env) (c : ToolCall) :
  In (tool_name c) tools /\ exists answer : string, invoke env c = Ok answer.
Proof.
  split; [apply tool_name_registered |].
  destruct c; simpl.
  - apply get_shipment_status_returns.
  - apply calculate_shipping_cost_returns.
  - apply find_nearest_warehouse_returns.
  - apply estimate_delivery_time_returns.
  - apply search_shipments_returns.
Qed.

(** *** Faults turned into answers, on concrete inputs *)

Example status_found :
  get_shipment_status demo_env "track1"
  = Ok "Shipment track1: Status is 'in_transit'. Current location: Processing at origin. Origin: Chicago, Destination: Boston.".
Proof. reflexivity. Qed.

Example status_not_found :
  get_shipment_status demo_env "nope"
  = Ok "Shipment with tracking number nope not found. Please verify the tracking number and try again.".
Proof. reflexivity. Qed.

Example status_store_down :
  get_shipment_status down_env "track1"
  = Ok "Unable to retrieve status for track1. Please try again.".
Proof. reflexivity. Qed.

(** A warehouse row with a NULL utilization makes the percentage raise;
    the handler still answers. *)
Example warehouse_null_utilization :
  find_nearest_warehouse demo_env "boston"
  = Ok "Unable to find nearby warehouses. Please try again.".
Proof. reflexivity. Qed.

(** Reading [estimated_delivery] raises; the handler still answers. *)
Example estimate_missing_attribute :
  estimate_delivery_time demo_env "TRACK1"
  = Ok "Unable to estimate delivery time. Please try again.".
Proof. reflexivity. Qed.

Example estimate_delivered :
  estimate_delivery_time demo_env "track2"
  = Ok "Shipment track2 was already delivered on 2024-01-01.".
Proof. reflexivity. Qed.

Example search_store_down :
  search_shipments down_env None (Some "chicago") None
  = Ok "Unable to search shipments. Please try again.".
Proof. reflexivity. Qed.

(** ** Case-insensitive lookups *)


(** ** The conversational agent *)

Lemma counting_executor_saves : saves_completed_runs counting_executor.
Proof. intros h m. cbn. eexists. split; reflexivity. Qed.

Lemma failing_executor_saves : saves_completed_runs failing_executor.
Proof. intros h m. reflexivity. Qed.

Lemma extract_sources_are_dicts (steps : list Step) :
  forallb is_dict (_extract_sources steps) = true.
Proof. induction steps as [| step rest IH]; cbn; [reflexivity | exact IH]. Qed.

Section Agent.

Variable executor : Executor.

(** X1: [chat] returns a dictionary whatever the executor does: no
    exception leaves it. *)
Lemma chat_never_raises (agent : LogisticsAIAgent) (message : string)
    (conversation_id : option string) :
  exists response, fst (chat executor agent message conversation_id) = Ok response.
Proof.
  unfold chat. destruct (executor (memory agent) message) as [outcome mem'].
  cbn [fst]. apply try_except_returns. intros e. eauto.
Qed.

(** The memory a call leaves is the executor's; the conversation
    identifier plays no part in it. *)
Lemma chat_memory (agent : LogisticsAIAgent) (message : string)
    (conversation_id : option string) :
  memory (snd (chat executor agent message conversation_id))
  = snd (executor (memory agent) message).
Proof.
  unfold chat. destruct (executor (memory agent) message) as [outcome mem'].
  reflexivity.
Qed.

Lemma chat_with_ai_history (p : Process) (request : ChatRequest) :
  history (snd (chat_with_ai executor p request))
  = snd (executor (history p) (req_message request)).
Proof.
  unfold chat_with_ai, history.
  destruct (get_ai_agent p) as [agent p1] eqn:Hagent. cbn [fst].
  pose proof (chat_memory agent (req_message request) (req_conversation_id request))
    as Hmem.
  destruct (chat executor agent (req_message request) (req_conversation_id request))
    as [response agent'].
  cbn [snd] in *. unfold get_ai_agent. cbn. exact Hmem.
Qed.

Lemma clear_conversation_history (p : Process) (conversation_id : string) :
  history (snd (clear_conversation p conversation_id)) = [].
Proof.
  unfold clear_conversation, history.
  destruct (get_ai_agent p) as [agent p1]. reflexivity.
Qed.

End Agent.

(** C4, as the code has it: [chat] answers with the apology exactly when
    the executor call raises.  A fault [e] that leaves the executor is
    not re-raised: [chat] returns the fixed apology together with the
    description [str(e)], and the body the endpoint sends is the apology
    alone, the same for every fault (the path never consults the debug
    setting).  A run the executor brings to an end itself is a normal
    answer: [chat] returns the executor's output and sources, without an
    apology and without an [error] entry. *)
Theorem chat_apologises_when_the_executor_raises (executor : Executor)
    (p : Process) (request : ChatRequest) :
  match fst (executor (history p) (req_message request)) with
  | Raise e =>
      fst (chat executor (fst (get_ai_agent p))
                (req_message request) (req_conversation_id request))
      = Ok [ ("message", VStr apology);
             ("conversation_id",
              VStr (or_default (req_conversation_id request) "new"));
             ("error", VStr (str_exn e)) ]
      /\ fst (chat_with_ai executor p request)
         = Response (mkChatResponse apology
                       (or_default (req_conversation_id request) "new")
                       None None)
  | Ok finished =>
      fst (chat executor (fst (get_ai_agent p))
                (req_message request) (req_conversation_id request))
      = Ok [ ("message", VStr (output finished));
             ("conversation_id",
              VStr (or_default (req_conversation_id request) "new"));
             ("tokens_used", VNone);
             ("sources",
              VList (_extract_sources (intermediate_steps finished))) ]
      /\ fst (chat_with_ai executor p request)
         = Response (mkChatResponse (output finished)
                       (or_default (req_conversation_id request) "new")
                       None
                       (Some (_extract_sources (intermediate_steps finished))))
  end.
Proof.
  unfold chat_with_ai, chat, history.
  destruct (get_ai_agent p) as [agent p1]. cbn [fst].
  destruct (executor (memory agent) (req_message request))
    as [[finished | e] memory_after]; cbn.
  - rewrite extract_sources_are_dicts. split; reflexivity.
  - split; reflexivity.
Qed.

Lemma chat_apologises_when_the_executor_raises_witness :
  fst (chat_with_ai failing_executor (mkProcess None)
         (mkChatRequest "Where is TRACK1?" (Some "c-17")))
  = Response (mkChatResponse apology "c-17" None None).
Proof.
  exact (proj2 (chat_apologises_when_the_executor_raises failing_executor
                  (mkProcess None)
                  (mkChatRequest "Where is TRACK1?" (Some "c-17")))).
Defined.

(** C4 (counterexample): a run stopped at a cap is one of the aborts the
    claim names, and it is not answered with the apology: the executor
    returns its stop text, and [chat] and the endpoint pass it on as the
    answer, with no [error] entry. *)
Lemma capped_run_is_answered_without_apology :
  fst (chat stopping_executor new_agent "Where is TRACK1?" (Some "c-17"))
  = Ok [ ("message", VStr stop_text);
         ("conversation_id", VStr "c-17");
         ("tokens_used", VNone);
         ("sources",
          VList (_extract_sources
                   [mkStep "get_shipment_status" "TRACK1"
                      "Shipment with tracking number TRACK1 not found. Please verify the tracking number and try again."])) ]
  /\ resp_message_of
       (fst (chat_with_ai stopping_executor (mkProcess None)
               (mkChatRequest "Where is TRACK1?" (Some "c-17"))))
     = Some stop_text
  /\ String.eqb stop_text apology = false.
Proof. repeat split. Qed.

(** C6, as the code has it: clearing a conversation empties the history,
    whatever it held and whatever the identifier, and the chat call that
    comes next leaves exactly what the executor saves when it starts from
    an empty memory: nothing from before the clear.  With an executor
    that saves the runs that return and nothing of the runs that raise,
    this is the one user turn followed by the turns the call generated
    (none of them a user turn) when the run returns, and no turn at all
    when it raises. *)
Theorem clear_then_chat_leaves_that_call_only (executor : Executor)
    (p : Process) (conversation_id : string) (request : ChatRequest) :
  history (snd (clear_conversation p conversation_id)) = []
  /\ history (snd (chat_with_ai executor
                     (snd (clear_conversation p conversation_id)) request))
     = snd (executor [] (req_message request))
  /\ (saves_completed_runs executor ->
      match fst (executor [] (req_message request)) with
      | Ok _ =>
          exists generated : list Turn,
            history (snd (chat_with_ai executor
                            (snd (clear_conversation p conversation_id)) request))
            = mkTurn user (req_message request) :: generated
            /\ filter is_user generated = []
            /\ length (filter is_user
                         (history (snd (chat_with_ai executor
                            (snd (clear_conversation p conversation_id))
                            request))))
               = 1
      | Raise _ =>
          history (snd (chat_with_ai executor
                          (snd (clear_conversation p conversation_id)) request))
          = []
      end).
Proof.
  assert (Hc : history (snd (clear_conversation p conversation_id)) = [])
    by apply clear_conversation_history.
  assert (Ha : history (snd (chat_with_ai executor
                               (snd (clear_conversation p conversation_id))
                               request))
               = snd (executor [] (req_message request))).
  { rewrite chat_with_ai_history, Hc. reflexivity. }
  split; [exact Hc |]. split; [exact Ha |].
  intros Hsaves. specialize (Hsaves [] (req_message request)).
  rewrite Ha.
  destruct (fst (executor [] (req_message request))) as [finished | e];
    [| exact Hsaves].
  destruct Hsaves as (generated & Hg & Hnone). cbn [app] in Hg.
  exists generated. rewrite Hg. cbn [filter is_user role]. rewrite Hnone.
  repeat split; assumption || reflexivity.
Qed.

Lemma clear_then_chat_leaves_that_call_only_witness :
  history (snd (chat_with_ai counting_executor
                  (snd (clear_conversation
                          (snd (chat_with_ai counting_executor (mkProcess None)
                                  (mkChatRequest "Where is TRACK1?" (Some "c-17"))))
                          "c-17"))
                  (mkChatRequest "Any warehouse near Boston?" (Some "c-17"))))
  = [ mkTurn user "Any warehouse near Boston?"; mkTurn assistant "turns seen: 0" ].
Proof.
  exact (proj1 (proj2 (clear_then_chat_leaves_that_call_only counting_executor
                         (snd (chat_with_ai counting_executor (mkProcess None)
                                 (mkChatRequest "Where is TRACK1?" (Some "c-17"))))
                         "c-17"
                         (mkChatRequest "Any warehouse near Boston?" (Some "c-17"))))).
Defined.

(** C6 (counterexample): after a conversation of two turns is cleared, a
    chat call whose executor run fails leaves an empty history: it holds
    no user turn, not exactly one. *)
Lemma clear_then_failed_chat_leaves_no_user_turn :
  history (snd (chat_with_ai failing_executor
                  (snd (clear_conversation
                          (snd (chat_with_ai counting_executor (mkProcess None)
                                  (mkChatRequest "Where is TRACK1?" (Some "c-17"))))
                          "c-17"))
                  (mkChatRequest "Any warehouse near Boston?" (Some "c-17"))))
  = []
  /\ length (filter is_user
               (history (snd (chat_with_ai failing_executor
                  (snd (clear_conversation
                          (snd (chat_with_ai counting_executor (mkProcess None)
                                  (mkChatRequest "Where is TRACK1?" (Some "c-17"))))
                          "c-17"))
                  (mkChatRequest "Any warehouse near Boston?" (Some "c-17"))))))
     <> 1.
Proof. split; [reflexivity | discriminate]. Qed.

(** C1 (the code at the failing input): with the turns of conversation [B]
    in memory, clearing conversation [A] empties the history every later
    request is answered from, and a chat request under [A] is answered
    from the two turns of [B] and adds its own turns to them; the
    conversation identifier selects nothing. *)
Theorem conversations_share_one_memory :
  let p := snd (chat_with_ai counting_executor (mkProcess None)
                  (mkChatRequest "Where is TRACK1?" (Some "B"))) in
  history p = conversation_B
  /\ history (snd (clear_conversation p "A")) = []
  /\ fst (chat_with_ai counting_executor p (mkChatRequest "Hello" (Some "A")))
     = Response (mkChatResponse "turns seen: 2" "A" None (Some []))
  /\ history (snd (chat_with_ai counting_executor p (mkChatRequest "Hello" (Some "A"))))
     = (conversation_B
        ++ [ mkTurn user "Hello"; mkTurn assistant "turns seen: 2" ])%list.
Proof. repeat split. Qed.

(** ** The retrieval subsystem *)

Section Retrieval.

Variable sv : Services.
Variable rag : LogisticsRAG.

Lemma simple_search_returns (query : string) (top_k : nat) :
  exists hits, simple_search sv rag query top_k = Ok hits.
Proof. apply try_except_returns. intros e. eauto. Qed.

Lemma search_returns (query : string) (top_k : nat) :
  exists response, search sv rag query top_k = Ok response.
Proof. apply try_except_returns. intros e. eauto. Qed.

(** X2: the answer of [search] does not depend on [top_k]: whenever the
    similarity search succeeds for two values of it, [search] returns the
    same dictionary for both (the chunks fetched for [top_k] are computed
    and dropped; the results are the ones of the chain's retriever). *)
Lemma search_independent_of_top_k (query : string) (k k' : nat)
    (docs docs' : list Document) :
  similarity_search sv (vector_store rag) query k = Ok docs ->
  similarity_search sv (vector_store rag) query k' = Ok docs' ->
  search sv rag query k = search sv rag query k'.
Proof.
  intros Hk Hk'. unfold search. rewrite Hk, Hk'. reflexivity.
Qed.

End Retrieval.

(** C10: the retrieval operations return whatever the services do.  If
    the similarity search raises, [simple_search] returns the empty list;
    if the similarity search, the chain's retriever or the model call
    raises [e], [search] returns the apology, an empty result list and the
    description of [e]. *)
Theorem retrieval_never_raises (sv : Services) (rag : LogisticsRAG)
    (query : string) (top_k : nat) :
  (exists hits, simple_search sv rag query top_k = Ok hits)
  /\ (exists response, search sv rag query top_k = Ok response)
  /\ (forall e,
        similarity_search sv (vector_store rag) query top_k = Raise e ->
        simple_search sv rag query top_k = Ok []
        /\ search sv rag query top_k = Ok (search_failure query e))
  /\ (forall docs e,
        similarity_search sv (vector_store rag) query top_k = Ok docs ->
        similarity_search sv (vector_store rag) query retriever_k = Raise e ->
        search sv rag query top_k = Ok (search_failure query e))
  /\ (forall docs source_documents e,
        similarity_search sv (vector_store rag) query top_k = Ok docs ->
        similarity_search sv (vector_store rag) query retriever_k
        = Ok source_documents ->
        llm_answer sv query source_documents = Raise e ->
        search sv rag query top_k = Ok (search_failure query e)).
Proof.
  split; [apply simple_search_returns |].
  split; [apply search_returns |].
  unfold simple_search, search, qa_chain_ainvoke.
  split; [| split].
  - intros e He. rewrite He. split; reflexivity.
  - intros docs e Hd He. rewrite Hd. cbn [bind]. rewrite He. reflexivity.
  - intros docs sd e Hd Hs He. rewrite Hd. cbn [bind]. rewrite Hs. cbn [bind].
    rewrite He. reflexivity.
Qed.

Lemma retrieval_never_raises_witness :
  simple_search embedding_down_services (mkRAG _get_sample_documents)
                "safety procedures" 4 = Ok []
  /\ search embedding_down_services (mkRAG _get_sample_documents)
            "safety procedures" 4
     = Ok (search_failure "safety procedures"
             (mkExn "AuthenticationError" "No API key provided")).
Proof.
  exact (proj1 (proj2 (proj2
           (retrieval_never_raises embedding_down_services
              (mkRAG _get_sample_documents) "safety procedures" 4)))
           _ eq_refl).
Defined.

(** C5 (the code at the failing input): asked for the single nearest
    chunk of the two-chunk fallback corpus, [simple_search] returns one
    chunk and [search] returns two: its result list is the one of the
    chain's retriever, fixed at four, whatever [top_k] is. *)
Theorem search_ignores_top_k :
  hit_count (simple_search insertion_order_services fallback_rag
               "safety procedures" 1) = Some 1
  /\ result_count (search insertion_order_services fallback_rag
                     "safety procedures" 1) = Some 2
  /\ search insertion_order_services fallback_rag "safety procedures" 1
     = search insertion_order_services fallback_rag "safety procedures" 4.
Proof. repeat split. Qed.

(** *** Initialization *)

Section Initialization.

Variable sv : Services.

(** Without persisted chunks, initialization is the ingestion of the
    documents directory. *)
Lemma initialize_without_persisted (disk : Disk) :
  no_persisted_chunks disk = true ->
  _initialize_vector_store sv disk
  = _load_documents_to_vector_store sv (docs_dir disk).
Proof.
  unfold no_persisted_chunks, _initialize_vector_store.
  destruct (persisted disk) as [[| c vs] | e]; intros H; try discriminate.
  - cbn. now destruct (_load_documents_to_vector_store sv (docs_dir disk)).
  - reflexivity.
Qed.


(** For a directory without documents nothing is ingested. *)
Lemma load_empty_dir (dir : DocsDir) :
  is_empty_dir dir = true ->
  _load_documents_to_vector_store sv dir = from_documents sv [].
Proof.
  destruct dir as [c | [[| d pdfs] | e] [[| d' txts] | e']]; cbn; intros H;
    try discriminate; reflexivity.
Qed.

(** When nothing was persisted and the documents directory exists
    without documents, initialization raises, whatever the services do:
    there is nothing to build the index from, and no fallback is taken. *)
Lemma empty_dir_stops_initialization (disk : Disk) :
  no_persisted_chunks disk = true ->
  is_empty_dir (docs_dir disk) = true ->
  exists e, init_rag sv disk = Raise e.
Proof.
  intros Hp Hd. unfold init_rag.
  rewrite (initialize_without_persisted _ Hp), (load_empty_dir _ Hd).
  unfold from_documents. cbn [map].
  destruct (embed_documents sv []) as [u | e]; cbn; eauto.
Qed.


End Initialization.



(** A persisted index with chunks is used as it is; the documents
    directory is not looked at. *)
Lemma initialize_uses_persisted (sv : Services) (chunk : Document)
    (chunks : list Document) (dir : DocsDir) :
  init_rag sv (mkDisk (Ok (chunk :: chunks)) dir) = Ok (mkRAG (chunk :: chunks)).
Proof. reflexivity. Qed.

(** A missing directory that cannot be created stops initialization:
    [_create_sample_documents] is called outside the [try]. *)
Lemma init_raises_when_directory_cannot_be_created (sv : Services) (e : Exn) :
  init_rag sv (mkDisk (Ok []) (Absent (Raise e))) = Raise e.
Proof. reflexivity. Qed.


(** ** Further properties of the code *)

Lemma search_independent_of_top_k_witness :
  search insertion_order_services fallback_rag "lifting" 2
  = search insertion_order_services fallback_rag "lifting" 20.
Proof.
  exact (search_independent_of_top_k insertion_order_services fallback_rag
           "lifting" 2 20 _ _ eq_refl eq_refl).
Defined.

(** X3: for a shipment that is found and not yet delivered,
    [estimate_delivery_time] reads [shipment.estimated_delivery], which
    the model class does not have (its column is [stimated_delivery]): the
    read raises and the handler answers with its fallback text, whatever
    the dates stored. *)
Lemma estimate_delivery_time_undelivered (env : Env) (db : Database)
    (tracking : string) (shipment : Shipment) :
  store env = Available db ->
  shipment_by_tracking db tracking = Some shipment ->
  actual_delivery shipment = None ->
  estimate_delivery_time env tracking
  = Ok "Unable to estimate delivery time. Please try again.".
Proof.
  intros Hstore Hfound Hnot. unfold estimate_delivery_time.
  rewrite Hstore. cbn [SessionLocal bind]. rewrite Hfound, Hnot. reflexivity.
Qed.

Lemma estimate_delivery_time_undelivered_witness :
  estimate_delivery_time demo_env "track1"
  = Ok "Unable to estimate delivery time. Please try again.".
Proof.
  exact (estimate_delivery_time_undelivered demo_env demo_db "track1"
           (mkShipment "TRACK1" "Chicago" "Boston" None IN_TRANSIT None None)
           eq_refl eq_refl eq_refl).
Defined.

(** ** Slices *)

Lemma length_list_ascii_of_string (s : string) :
  length (list_ascii_of_string s) = String.length s.
Proof. induction s as [| c s IH]; cbn; [reflexivity | now rewrite IH]. Qed.

Lemma list_ascii_of_string_app (s t : string) :
  list_ascii_of_string (s ++ t)
  = (list_ascii_of_string s ++ list_ascii_of_string t)%list.
Proof. induction s as [| c s IH]; cbn; [reflexivity | now rewrite IH]. Qed.

Lemma list_ascii_of_substring (i n : nat) :
  forall s,
    list_ascii_of_string (substring i n s)
    = firstn n (skipn i (list_ascii_of_string s)).
Proof.
  induction i as [| i IHi].
  - induction n as [| n IHn]; intros [| c s]; cbn; try reflexivity.
    now rewrite IHn.
  - intros [| c s]; cbn.
    + now destruct n.
    + apply IHi.
Qed.

Lemma list_ascii_of_concat (chunks : list string) :
  list_ascii_of_string (String.concat "" chunks)
  = List.concat (map list_ascii_of_string chunks).
Proof.
  induction chunks as [| c rest IH]; [reflexivity |].
  destruct rest as [| d rest].
  - cbn. now rewrite app_nil_r.
  - change (String.concat "" (c :: d :: rest))
      with (c ++ "" ++ String.concat "" (d :: rest)).
    rewrite list_ascii_of_string_app. cbn [append].
    rewrite IH. reflexivity.
Qed.

Lemma range_from_below (fuel : nat) (stop step : nat) :
  forall start i, In i (range_from fuel start stop step) -> start <= i < stop.
Proof.
  induction fuel as [| fuel IH]; intros start i; cbn [range_from]; [intros [] |].
  destruct (Nat.ltb_spec start stop) as [Hlt | Hge]; [| intros []].
  intros [<- | Hin]; [lia |]. specialize (IH _ _ Hin). lia.
Qed.

(** The slices taken at the positions of [range] cover the list once,
    in order. *)
Lemma slices_cover {A : Type} (step : nat) (l : list A) :
  0 < step ->
  forall fuel start,
    length l - start <= fuel ->
    List.concat (map (fun i => firstn step (skipn i l))
                     (range_from fuel start (length l) step))
    = skipn start l.
Proof.
  intros Hstep. induction fuel as [| fuel IH]; intros start Hfuel;
    cbn [range_from].
  - cbn. symmetry. apply skipn_all2. lia.
  - destruct (Nat.ltb_spec start (length l)) as [Hlt | Hge].
    + cbn [map List.concat]. rewrite IH by lia.
      rewrite <- (firstn_skipn step (skipn start l)) at 2.
      now rewrite skipn_skipn, (Nat.add_comm step start).
    + cbn. symmetry. apply skipn_all2. lia.
Qed.

(** The number of slices: the length divided by the step, rounded up. *)
Lemma range_from_count (step stop : nat) :
  0 < step ->
  forall fuel start,
    stop - start <= fuel ->
    length (range_from fuel start stop step) = (stop - start + step - 1) / step.
Proof.
  intros Hstep. induction fuel as [| fuel IH]; intros start Hfuel;
    cbn [range_from].
  - replace (stop - start + step - 1) with (step - 1) by lia.
    symmetry. apply Nat.div_small. lia.
  - destruct (Nat.ltb_spec start stop) as [Hlt | Hge].
    + cbn [length]. rewrite IH by lia.
      destruct (Nat.le_gt_cases step (stop - start)) as [Hfull | Hlast].
      * replace (stop - start + step - 1)
          with ((stop - (start + step) + step - 1) + 1 * step) by lia.
        rewrite Nat.div_add by lia. lia.
      * replace (stop - (start + step) + step - 1) with (step - 1) by lia.
        rewrite (Nat.div_small (step - 1)) by lia.
        apply (Nat.div_unique _ _ 1 (stop - start - 1)); lia.
    + replace (stop - start + step - 1) with (step - 1) by lia.
      symmetry. apply Nat.div_small. lia.
Qed.

Lemma string_of_list_ascii_inj (s t : string) :
  list_ascii_of_string s = list_ascii_of_string t -> s = t.
Proof.
  intros H. rewrite <- (string_of_list_ascii_of_string s),
              <- (string_of_list_ascii_of_string t). now rewrite H.
Qed.

(** Cutting a message into the slices of the stream and joining them
    gives the message back; no slice is empty or longer than the chunk
    size. *)
Lemma message_slices (message : string) :
  let chunks :=
    map (fun i => slice message i (i + stream_chunk_size))
        (range 0 (String.length message) stream_chunk_size) in
  String.concat "" chunks = message
  /\ Forall (fun chunk => 1 <= String.length chunk <= stream_chunk_size) chunks
  /\ length chunks
     = (String.length message + stream_chunk_size - 1) / stream_chunk_size.
Proof.
  assert (Hstep : 0 < stream_chunk_size) by (unfold stream_chunk_size; lia).
  cbv zeta. unfold range, slice.
  rewrite <- (length_list_ascii_of_string message).
  set (l := list_ascii_of_string message).
  repeat split.
  - apply string_of_list_ascii_inj. rewrite list_ascii_of_concat, map_map.
    erewrite map_ext.
    + rewrite (slices_cover stream_chunk_size l Hstep (length l) 0) by lia.
      reflexivity.
    + intros i. cbn beta. rewrite list_ascii_of_substring.
      now replace (i + stream_chunk_size - i) with stream_chunk_size by lia.
  - apply Forall_map, Forall_forall. intros i Hin.
    apply range_from_below in Hin.
    rewrite <- length_list_ascii_of_string, list_ascii_of_substring.
    fold l. rewrite length_firstn, length_skipn. lia.
  - rewrite length_map, range_from_count by lia. f_equal. lia.
Qed.

(** ** More of the agent and its endpoints *)

Lemma or_default_nonempty (o : option string) (default : string) :
  default <> "" -> or_default o default <> "".
Proof.
  intros Hd. unfold or_default. destruct o as [s |]; [| exact Hd].
  destruct (String.eqb_spec s ""); assumption.
Qed.

Lemma length_prefix (n : nat) (s : string) :
  String.length (prefix n s) = Nat.min n (String.length s).
Proof.
  unfold prefix. rewrite <- !length_list_ascii_of_string, list_ascii_of_substring.
  cbn [skipn]. apply length_firstn.
Qed.

Lemma prefix_is_prefix (n : nat) :
  forall s, String.prefix (prefix n s) s = true.
Proof.
  unfold prefix. induction n as [| n IH]; intros [| c s]; cbn; try reflexivity.
  rewrite IH. now destruct (ascii_dec c c).
Qed.

(** X4: the sources [chat] reports are one per intermediate step, in the
    order of the steps; each carries the tool, its input and the
    observation cut to its first 200 characters at most. *)
Theorem extract_sources_truncates (steps : list Step) :
  length (_extract_sources steps) = length steps
  /\ forall i step,
       nth_error steps i = Some step ->
       exists shown,
         nth_error (_extract_sources steps) i
         = Some (VDict [ ("tool", VStr (step_tool step));
                         ("input", VStr (step_tool_input step));
                         ("output", VStr shown) ])
         /\ String.prefix shown (step_observation step) = true
         /\ String.length shown
            = Nat.min 200 (String.length (step_observation step)).
Proof.
  split; [apply length_map |].
  intros i step Hi. exists (prefix 200 (step_observation step)).
  split; [| split].
  - unfold _extract_sources. now rewrite nth_error_map, Hi.
  - apply prefix_is_prefix.
  - apply length_prefix.
Qed.

Lemma extract_sources_truncates_witness :
  exists shown,
    nth_error (_extract_sources
                 [mkStep "get_shipment_status" "TRACK1" "Shipment TRACK1: ..."]) 0
    = Some (VDict [ ("tool", VStr "get_shipment_status");
                    ("input", VStr "TRACK1");
                    ("output", VStr shown) ])
    /\ String.prefix shown "Shipment TRACK1: ..." = true
    /\ String.length shown = Nat.min 200 (String.length "Shipment TRACK1: ...").
Proof.
  exact (proj2 (extract_sources_truncates
                  [mkStep "get_shipment_status" "TRACK1" "Shipment TRACK1: ..."])
               0 _ eq_refl).
Defined.

(** X5: [POST /chat] answers with a response body whatever the executor
    does, never with an HTTP error: the body carries the executor's
    output and sources, or the apology; its conversation identifier is the
    one of the request, or [new] when the request has none or an empty
    one, and so is never empty. *)
Theorem chat_with_ai_always_responds (executor : Executor) (p : Process)
    (request : ChatRequest) :
  exists body,
    fst (chat_with_ai executor p request) = Response body
    /\ resp_conversation_id body = or_default (req_conversation_id request) "new"
    /\ resp_conversation_id body <> ""
    /\ resp_tokens_used body = None
    /\ match fst (executor (history p) (req_message request)) with
       | Ok finished =>
           resp_message body = output finished
           /\ resp_sources body
              = Some (_extract_sources (intermediate_steps finished))
       | Raise _ => resp_message body = apology /\ resp_sources body = None
       end.
Proof.
  unfold chat_with_ai, chat, history.
  destruct (get_ai_agent p) as [agent p1]. cbn [fst].
  destruct (executor (memory agent) (req_message request))
    as [[finished | e] memory_after]; cbn.
  - rewrite extract_sources_are_dicts. eexists. cbn.
    repeat split. apply or_default_nonempty. discriminate.
  - eexists. repeat split. apply or_default_nonempty. discriminate.
Qed.

(** X6: the simulated stream of [POST /chat/stream] never carries an
    error event: it is the message of the chat response cut into chunks
    of 1 to 20 characters that join back to the message, followed by the
    one final event. *)
Theorem stream_carries_the_message (executor : Executor)
    (agent : LogisticsAIAgent) (message : string)
    (conversation_id : option string) :
  exists (response : Dict) (text : string) (chunks : list string),
    fst (chat executor agent message conversation_id) = Ok response
    /\ get response "message" = Some (VStr text)
    /\ stream_payloads (fst (chat executor agent message conversation_id))
       = (map chunk_payload chunks ++ [done_payload])%list
    /\ String.concat "" chunks = text
    /\ Forall (fun chunk => 1 <= String.length chunk <= 20) chunks.
Proof.
  unfold chat.
  destruct (executor (memory agent) message) as [[finished | e] memory_after];
    cbn [fst try_except bind].
  - destruct (message_slices (output finished)) as (Hjoin & Hsizes & _).
    eexists. exists (output finished). eexists.
    split; [reflexivity |]. split; [reflexivity |].
    split; [| split; [exact Hjoin | exact Hsizes]].
    unfold stream_payloads. cbn [bind get String.eqb Ascii.eqb Bool.eqb].
    cbn. now rewrite map_map.
  - destruct (message_slices apology) as (Hjoin & Hsizes & _).
    eexists. exists apology. eexists.
    split; [reflexivity |]. split; [reflexivity |].
    split; [| split; [exact Hjoin | exact Hsizes]].
    unfold stream_payloads. cbn [bind]. cbn [get]. cbn [String.eqb].
    now rewrite map_map.
Qed.

(** X7: [POST /query/shipment] answers with a response body whatever the
    executor does, and the body always says the shipments database was
    searched, also when the executor failed and the answer is the
    apology.  The request goes through the same agent: it is answered
    from, and recorded in, the shared history. *)
Theorem shipment_query_always_claims_a_search (executor : Executor)
    (p : Process) (query : string) :
  let message := "Search and analyze shipments based on this query: " ++ query in
  exists answer,
    fst (natural_language_shipment_query executor p query)
    = Response (mkShipmentQueryResponse query answer None
                  (Some "Searched shipments database"))
    /\ match fst (executor (history p) message) with
       | Ok finished => answer = output finished
       | Raise _ => answer = apology
       end
    /\ history (snd (natural_language_shipment_query executor p query))
       = snd (executor (history p) message).
Proof.
  cbv zeta. unfold natural_language_shipment_query, chat, history.
  destruct (get_ai_agent p) as [agent p1]. cbn [fst].
  destruct (executor (memory agent)
              ("Search and analyze shipments based on this query: " ++ query))
    as [[finished | e] memory_after]; cbn; eexists; repeat split.
Qed.

(** ** The retrieval singleton and its endpoints *)

Lemma search_result_validates (sv : Services) (rag : LogisticsRAG)
    (query : string) (top_k : nat) :
  exists results answer,
    (found <- search sv rag query top_k ;; make_DocumentSearchResponse found)
    = Ok (mkDocumentSearchResponse query results (Some answer)).
Proof.
  unfold search, qa_chain_ainvoke.
  destruct (similarity_search sv (vector_store rag) query top_k) as [docs | e];
    cbn [bind try_except]; [| cbn; eauto].
  destruct (similarity_search sv (vector_store rag) query retriever_k)
    as [source_documents | e]; cbn [bind try_except]; [| cbn; eauto].
  destruct (llm_answer sv query source_documents) as [answer | e];
    cbn [bind try_except]; [| cbn; eauto].
  cbn [fst snd]. unfold make_DocumentSearchResponse. cbn [get String.eqb bind].
  cbn.
  assert (Hdicts : forall docs : list Document,
             forallb is_dict
               (map (fun doc =>
                       VDict [ ("content", VStr (page_content doc));
                               ("source",
                                get_default (metadata doc) "source" (VStr "unknown"));
                               ("page", get_default (metadata doc) "page" VNone) ])
                    docs) = true).
  { intros l. induction l as [| d l IH]; cbn; [reflexivity | exact IH]. }
  rewrite Hdicts. cbn. eauto.
Qed.

(** X8: once a retrieval instance exists, [get_rag_system] returns it
    and never looks at the disk or the services again; an initialization
    that fails leaves no instance behind, so the next call tries again. *)
Theorem rag_instance_is_built_once (sv : Services) (disk : Disk) (p : RagProcess) :
  (forall rag,
      fst (get_rag_system sv disk p) = Ok rag ->
      forall sv' disk',
        get_rag_system sv' disk' (snd (get_rag_system sv disk p))
        = (Ok rag, snd (get_rag_system sv disk p)))
  /\ (forall e,
        fst (get_rag_system sv disk p) = Raise e ->
        snd (get_rag_system sv disk p) = p /\ _rag_instance p = None).
Proof.
  unfold get_rag_system. split.
  - intros rag. destruct (_rag_instance p) as [rag0 |] eqn:Hp.
    + cbn. intros H sv' disk'. rewrite Hp. exact (f_equal (fun r => (r, p)) H).
    + destruct (init_rag sv disk) as [rag1 | e]; cbn; intros H; [| discriminate].
      intros sv' disk'. exact (f_equal (fun r => (r, _)) H).
  - intros e. destruct (_rag_instance p) as [rag0 |]; cbn; [discriminate |].
    destruct (init_rag sv disk) as [rag1 | e']; cbn; [discriminate |].
    intros _. split; reflexivity.
Qed.

Lemma rag_instance_is_built_once_witness :
  get_rag_system embedding_down_services
    (mkDisk (Ok []) (Existing (Ok []) (Ok [])))
    (snd (get_rag_system insertion_order_services
            (mkDisk (Ok []) (Absent (Ok tt))) (mkRagProcess None)))
  = (Ok (mkRAG [operations_manual]),
     snd (get_rag_system insertion_order_services
            (mkDisk (Ok []) (Absent (Ok tt))) (mkRagProcess None))).
Proof.
  exact (proj1 (rag_instance_is_built_once insertion_order_services
                  (mkDisk (Ok []) (Absent (Ok tt))) (mkRagProcess None))
               (mkRAG [operations_manual]) eq_refl
               embedding_down_services
               (mkDisk (Ok []) (Existing (Ok []) (Ok [])))).
Defined.

(** X9: [POST /search] answers with a response body whenever a retrieval
    instance is available, also when the search itself fails (the body
    then holds the apology and no result, and nothing of the fault); the
    only HTTP error is a failed initialization, whose status is 500 and
    whose detail carries the text of the fault. *)
Theorem search_documentation_outcomes (sv : Services) (disk : Disk)
    (p : RagProcess) (request : DocumentSearchRequest) :
  (forall rag,
      fst (get_rag_system sv disk p) = Ok rag ->
      (exists results answer,
          fst (search_documentation sv disk p request)
          = Response (mkDocumentSearchResponse (dq_query request) results
                        (Some answer)))
      /\ (forall e,
            similarity_search sv (vector_store rag) (dq_query request)
                              (dq_top_k request) = Raise e ->
            fst (search_documentation sv disk p request)
            = Response (mkDocumentSearchResponse (dq_query request) []
                          (Some search_apology))))
  /\ (forall e,
        fst (get_rag_system sv disk p) = Raise e ->
        fst (search_documentation sv disk p request)
        = HTTPException 500 ("Error searching documentation: " ++ str_exn e)).
Proof.
  unfold search_documentation.
  destruct (get_rag_system sv disk p) as [[rag0 | e0] p']; cbn [fst]; split;
    try (intros ? H; discriminate H).
  - intros rag H. inversion H; subst rag0. cbn [bind]. split.
    + destruct (search_result_validates sv rag (dq_query request) (dq_top_k request))
        as (results & answer & ->). eauto.
    + intros e He. unfold search. rewrite He. reflexivity.
  - intros e H. inversion H; subst e0. reflexivity.
Qed.

Lemma search_documentation_outcomes_witness :
  fst (search_documentation embedding_down_services
         (mkDisk (Ok []) (Absent (Ok tt))) (mkRagProcess None)
         (mkDocumentSearchRequest "safety procedures" 5))
  = HTTPException 500 "Error searching documentation: No API key provided".
Proof.
  exact (proj2 (search_documentation_outcomes embedding_down_services
                  (mkDisk (Ok []) (Absent (Ok tt))) (mkRagProcess None)
                  (mkDocumentSearchRequest "safety procedures" 5))
               _ eq_refl).
Defined.

(** X10: the health check of the AI router reports on the instances,
    not on the services: once it has answered [healthy] it answers
    [healthy] on every later call, whatever has become of the disk, the
    embedding service or the model. *)
Theorem health_stays_healthy (sv : Services) (disk : Disk)
    (p : Process) (rp : RagProcess) :
  get (fst (fst (ai_health_check sv disk p rp))) "status" = Some (VStr "healthy") ->
  forall sv' disk',
    let p' := snd (fst (ai_health_check sv disk p rp)) in
    let rp' := snd (ai_health_check sv disk p rp) in
    get (fst (fst (ai_health_check sv' disk' p' rp'))) "status"
    = Some (VStr "healthy").
Proof.
  unfold ai_health_check.
  destruct (get_ai_agent p) as [agent p1].
  pose proof (rag_instance_is_built_once sv disk rp) as [Honce _].
  destruct (get_rag_system sv disk rp) as [[rag | e] rp1]; cbn [fst snd] in *;
    [| discriminate].
  intros _ sv' disk'. cbv zeta.
  destruct (get_ai_agent p1) as [agent' p2].
  rewrite (Honce rag eq_refl sv' disk'). reflexivity.
Qed.

Lemma health_stays_healthy_witness :
  let first := ai_health_check insertion_order_services
                 (mkDisk (Ok []) (Absent (Ok tt)))
                 (mkProcess None) (mkRagProcess None) in
  get (fst (fst (ai_health_check embedding_down_services
                   (mkDisk (Raise (mkExn "OSError" "disk failure"))
                           (Absent (Raise (mkExn "OSError" "disk failure"))))
                   (snd (fst first)) (snd first))))
      "status"
  = Some (VStr "healthy").
Proof.
  exact (health_stays_healthy insertion_order_services
           (mkDisk (Ok []) (Absent (Ok tt))) (mkProcess None) (mkRagProcess None)
           eq_refl embedding_down_services
           (mkDisk (Raise (mkExn "OSError" "disk failure"))
                   (Absent (Raise (mkExn "OSError" "disk failure"))))).
Defined.

Lemma map_fst_combine {A B : Type} (l : list A) :
  forall l' : list B, map fst (combine l l') = firstn (length l') l.
Proof.
  induction l as [| a l IH]; intros [| b l']; cbn; try reflexivity.
  now rewrite IH.
Qed.

(** X11: [add_documents] appends to the index and keeps what was there.
    When the embedding call succeeds, the texts are added whole, in
    order, one chunk each (they are not split); with a non-empty metadata
    list only as many texts as there are metadata entries are added and
    the rest is dropped without notice.  When the embedding call fails
    the index stays as it was and nothing is raised. *)
Theorem add_documents_appends (sv : Services) (rag : LogisticsRAG)
    (texts : list string) (metadatas : option (list Dict)) :
  let added :=
    match metadatas with
    | Some (m :: ms) => Nat.min (length texts) (length (m :: ms))
    | Some [] | None => length texts
    end in
  let rag' := add_documents sv rag texts metadatas in
  (forall e,
      embed_documents sv (firstn added texts) = Raise e -> rag' = rag)
  /\ (forall u,
        embed_documents sv (firstn added texts) = Ok u ->
        exists documents,
          vector_store rag' = (vector_store rag ++ documents)%list
          /\ map page_content documents = firstn added texts
          /\ length documents = added).
Proof.
  cbv zeta. unfold add_documents, vector_store_add.
  set (metas := match metadatas with
                | Some (m :: ms) => m :: ms
                | _ => repeat [] (length texts)
                end).
  set (added := match metadatas with
                | Some (m :: ms) => Nat.min (length texts) (length (m :: ms))
                | _ => length texts
                end).
  assert (Hadded : firstn (length metas) texts = firstn added texts).
  { unfold metas, added. destruct metadatas as [[| m ms] |];
      rewrite ?repeat_length, ?firstn_all; try reflexivity.
    destruct (Nat.le_ge_cases (length texts) (length (m :: ms))) as [H | H].
    - rewrite Nat.min_l by exact H. rewrite firstn_all.
      now apply firstn_all2.
    - now rewrite Nat.min_r by exact H. }
  assert (Hcontents :
            map page_content
                (map (fun tm : string * Dict => mkDocument (fst tm) (snd tm))
                     (combine texts metas))
            = firstn added texts).
  { rewrite map_map. cbn [page_content].
    change (map (fun x : string * Dict => fst x) (combine texts metas))
      with (map fst (combine texts metas)).
    now rewrite map_fst_combine. }
  rewrite Hcontents. split.
  - intros e ->. destruct rag. reflexivity.
  - intros u ->. cbn [bind vector_store]. eexists. split; [reflexivity |].
    split; [exact Hcontents |].
    rewrite <- (length_map page_content), Hcontents, length_firstn.
    unfold added. destruct metadatas as [[| m ms] |]; lia.
Qed.

Lemma add_documents_appends_witness :
  exists documents,
    vector_store (add_documents insertion_order_services fallback_rag
                    ["Returns are accepted within 30 days."; "Dropped text."]
                    (Some [[("source", VStr "returns_policy")]]))
    = (vector_store fallback_rag ++ documents)%list
    /\ map page_content documents = ["Returns are accepted within 30 days."]
    /\ length documents = 1.
Proof.
  exact (proj2 (add_documents_appends insertion_order_services fallback_rag
                  ["Returns are accepted within 30 days."; "Dropped text."]
                  (Some [[("source", VStr "returns_policy")]]))
               tt eq_refl).
Defined.

(** ** More of the tools *)

Lemma upper_idem (s : string) : upper (upper s) = upper s.
Proof.
  unfold upper. induction s as [| c s IH]; cbn; [reflexivity |].
  now rewrite upper_char_idem, IH.
Qed.

Lemma first_filter_some {A : Type} (f : A -> bool) (l : list A) (x : A) :
  first (filter f l) = Some x -> In x l /\ f x = true.
Proof.
  intros H. assert (Hin : In x (filter f l)).
  { destruct (filter f l) as [| y rest]; [discriminate |].
    inversion H. now left. }
  now apply filter_In in Hin.
Qed.

(** X12: the lookup by tracking number only ever finds a row whose stored
    tracking number is in upper case: the row found is in the table and
    its tracking number is the upper-cased argument.  A row stored with a
    lower-case letter in its tracking number is found for no argument. *)
Theorem lookup_finds_upper_case_rows (db : Database) (tracking : string)
    (shipment : Shipment) :
  shipment_by_tracking db tracking = Some shipment ->
  In shipment (shipments db)
  /\ tracking_number shipment = upper tracking
  /\ upper (tracking_number shipment) = tracking_number shipment.
Proof.
  unfold shipment_by_tracking. intros H.
  apply first_filter_some in H as [Hin Heq].
  apply String.eqb_eq in Heq. repeat split; [exact Hin | exact Heq |].
  rewrite Heq. apply upper_idem.
Qed.

Lemma lookup_finds_upper_case_rows_witness :
  tracking_number (mkShipment "TRACK1" "Chicago" "Boston" None IN_TRANSIT None None)
  = upper "Track1".
Proof.
  exact (proj1 (proj2 (lookup_finds_upper_case_rows demo_db "Track1"
                         (mkShipment "TRACK1" "Chicago" "Boston" None IN_TRANSIT
                                     None None)
                         eq_refl))).
Defined.

Lemma like_any (s : string) : like "%" s = true.
Proof.
  induction s as [| c s IH]; [reflexivity |].
  change (like "%" (String c s)) with (like "" (String c s) || like "%" s).
  rewrite IH. apply orb_true_r.
Qed.

Lemma ilike_empty_needle (column : string) : ilike column ("%" ++ "" ++ "%") = true.
Proof.
  unfold ilike. change (lower ("%" ++ "" ++ "%")) with "%%".
  destruct (lower column) as [| c s]; [reflexivity |].
  change (like "%%" (String c s)) with (like "%" (String c s) || like "%%" s).
  now rewrite like_any.
Qed.

Lemma in_firstn {A : Type} (n : nat) (l : list A) (x : A) :
  In x (firstn n l) -> In x l.
Proof.
  intros H. rewrite <- (firstn_skipn n l). apply in_or_app. now left.
Qed.

Lemma filter_all {A : Type} (f : A -> bool) (l : list A) :
  (forall x, f x = true) -> filter f l = l.
Proof.
  intros H. induction l as [| x l IH]; cbn; [reflexivity |].
  now rewrite H, IH.
Qed.

(** X13: the warehouse lookup returns at most three rows, all of them
    rows of the table whose city matches the location; for the empty
    location every city matches, and the lookup returns the first three
    warehouses of the table. *)
Theorem warehouses_near_bounds (db : Database) (location : string) :
  length (warehouses_near db location) <= 3
  /\ (forall wh, In wh (warehouses_near db location) ->
                 In wh (warehouses db)
                 /\ ilike (city wh) ("%" ++ location ++ "%") = true)
  /\ warehouses_near db "" = firstn 3 (warehouses db).
Proof.
  unfold warehouses_near, limit. repeat split.
  - rewrite length_firstn. lia.
  - apply in_firstn in H. now apply filter_In in H.
  - apply in_firstn in H. now apply filter_In in H.
  - f_equal. apply filter_all. intros wh. apply ilike_empty_needle.
Qed.

Lemma Ok_inj {A : Type} (a b : A) : Ok a = Ok b -> a = b.
Proof. intros H. now injection H. Qed.

Lemma given_empty (o : option string) :
  o = None \/ o = Some "" -> given o = None.
Proof. intros [-> | ->]; reflexivity. Qed.

(** X14: the shipment search lists at most ten rows, all rows of the
    table; without criteria (each missing or the empty string) it lists
    the first ten shipments of the table. *)
Theorem shipments_matching_bounds (db : Database)
    (status_ origin_ destination_ : option string) :
  (forall found,
      shipments_matching db status_ origin_ destination_ = Ok found ->
      length found <= 10 /\ forall sh, In sh found -> In sh (shipments db))
  /\ ((status_ = None \/ status_ = Some "") ->
      (origin_ = None \/ origin_ = Some "") ->
      (destination_ = None \/ destination_ = Some "") ->
      shipments_matching db status_ origin_ destination_
      = Ok (firstn 10 (shipments db))).
Proof.
  unfold shipments_matching, limit. split.
  - intros found.
    destruct (match given status_ with
              | Some wanted => bind_status db wanted
              | None => Ok (fun _ => true)
              end) as [by_status | e]; cbn [bind]; [| discriminate].
    intros H. apply Ok_inj in H. rewrite <- H. split.
    + rewrite length_firstn. lia.
    + intros sh Hin. apply in_firstn in Hin.
      apply filter_In in Hin as [Hin _]. apply filter_In in Hin as [Hin _].
      now apply filter_In in Hin.
  - intros Hs Ho Hd.
    rewrite (given_empty _ Hs), (given_empty _ Ho), (given_empty _ Hd).
    cbn [bind]. now rewrite !filter_all.
Qed.

Lemma shipments_matching_bounds_witness :
  shipments_matching demo_db (Some "") None (Some "") = Ok (firstn 10 (shipments demo_db)).
Proof.
  exact (proj2 (shipments_matching_bounds demo_db (Some "") None (Some ""))
               (or_intror eq_refl) (or_introl eq_refl) (or_intror eq_refl)).
Defined.

Lemma for_each_raises {A : Type} (step : string -> A -> result string)
    (bad : A -> Prop) :
  (forall acc x, bad x -> exists e, step acc x = Raise e) ->
  forall xs acc,
    (exists x, In x xs /\ bad x) -> exists e, for_each step xs acc = Raise e.
Proof.
  intros Hbad. induction xs as [| x xs IH]; intros acc (y & Hin & Hy).
  - destruct Hin.
  - cbn [for_each]. destruct (step acc x) as [acc' | e] eqn:Hstep.
    + cbn [bind]. destruct Hin as [<- | Hin].
      * destruct (Hbad acc x Hy) as (e & He). congruence.
      * apply IH. now exists y.
    + cbn [bind]. now exists e.
Qed.

(** X15: one bad row hides every match: when a warehouse among the rows
    found has a capacity other than zero and a NULL utilization, the
    answer of [find_nearest_warehouse] is its fallback text and names no
    warehouse at all. *)
Theorem null_utilization_hides_matches (env : Env) (db : Database)
    (location : string) (wh : Warehouse) :
  store env = Available db ->
  In wh (warehouses_near db location) ->
  capacity_sqm wh <> 0%Z ->
  current_utilization wh = None ->
  find_nearest_warehouse env location
  = Ok "Unable to find nearby warehouses. Please try again.".
Proof.
  intros Hstore Hin Hcap Hnull. unfold find_nearest_warehouse.
  rewrite Hstore. cbn [SessionLocal bind].
  destruct (warehouses_near db location) as [| w rest] eqn:Hfound;
    [destruct Hin |].
  match goal with
  | |- try_except (for_each ?step ?xs ?acc) _ = _ =>
      destruct (for_each_raises step
                  (fun w => capacity_sqm w <> 0%Z /\ current_utilization w = None)
                  ltac:(intros acc0 x [Hc Hn]; unfold utilization_percentage;
                        apply Z.eqb_neq in Hc; rewrite Hc, Hn; cbn; eauto)
                  xs acc ltac:(exists wh; auto)) as (e & ->)
  end.
  reflexivity.
Qed.

Lemma null_utilization_hides_matches_witness :
  find_nearest_warehouse demo_env "o"
  = Ok "Unable to find nearby warehouses. Please try again.".
Proof.
  exact (null_utilization_hides_matches demo_env demo_db "o"
           (mkWarehouse "Harbor" "Boston" "MA" 50 None None)
           eq_refl (or_intror (or_introl eq_refl))
           ltac:(discriminate) eq_refl).
Defined.

(** X16: the shipping quote does not use the store and does not depend
    on the direction or the letter case of the two places: for places
    that differ only in letter case from the given ones, taken in either
    order, the quoted amount is the same. *)
Theorem shipping_quote_is_symmetric (env env' : Env) (o d o' d' : string)
    (weight_kg : float) :
  fmt env' = fmt env ->
  differ_only_in_case o o' = true ->
  differ_only_in_case d d' = true ->
  exists amount : string,
    calculate_shipping_cost env o d weight_kg
    = Ok ("Estimated shipping cost from " ++ o ++ " to " ++ d
          ++ " for " ++ str_float (fmt env) weight_kg ++ "kg: $" ++ amount
          ++ " USD. This includes base rate, weight charges, and distance calculation.")
    /\ calculate_shipping_cost env' d' o' weight_kg
       = Ok ("Estimated shipping cost from " ++ d' ++ " to " ++ o'
             ++ " for " ++ str_float (fmt env) weight_kg ++ "kg: $" ++ amount
             ++ " USD. This includes base rate, weight charges, and distance calculation.").
Proof.
  intros Hfmt Ho Hd. unfold calculate_shipping_cost. rewrite Hfmt.
  rewrite <- (differ_only_in_case_lower _ _ Ho),
          <- (differ_only_in_case_lower _ _ Hd).
  rewrite (String.eqb_sym (lower d) (lower o)).
  eexists. split; reflexivity.
Qed.

Lemma shipping_quote_is_symmetric_witness :
  exists amount : string,
    calculate_shipping_cost demo_env "Chicago" "boston" 2.0%float
    = Ok ("Estimated shipping cost from Chicago to boston for 0.0kg: $" ++ amount
          ++ " USD. This includes base rate, weight charges, and distance calculation.")
    /\ calculate_shipping_cost down_env "BOSTON" "chicago" 2.0%float
       = Ok ("Estimated shipping cost from BOSTON to chicago for 0.0kg: $" ++ amount
             ++ " USD. This includes base rate, weight charges, and distance calculation.").
Proof.
  exact (shipping_quote_is_symmetric demo_env down_env "Chicago" "boston"
           "chicago" "BOSTON" 2.0%float eq_refl eq_refl eq_refl).
Defined.

(** *** Lookups and letter case *)












(* ===================================================================== *)
(** ** The shipment endpoints *)
(* ===================================================================== *)

Lemma status_eqb_eq (a b : ShipmentStatus) : status_eqb a b = true <-> a = b.
Proof.
  destruct a, b; vm_compute; split; intros H;
    try reflexivity; discriminate.
Qed.

Lemma visible_to_incl (u : User) (q : list ShipmentRow) (r : ShipmentRow) :
  In r (visible_to u q) -> In r q.
Proof.
  unfold visible_to. destruct (negb (sees_all_shipments u)); [| easy].
  intros H. now apply filter_In in H.
Qed.

Lemma list_query_incl (rows : list ShipmentRow) (u : User)
    (st : option ShipmentStatus) (o d t : option string) (r : ShipmentRow) :
  In r (list_query rows u st o d t) -> In r rows.
Proof.
  unfold list_query. cbv zeta. intros H. apply visible_to_incl in H.
  destruct (given t); [apply filter_In in H as [H _] |];
    (destruct (given d); [apply filter_In in H as [H _] |]);
    (destruct (given o); [apply filter_In in H as [H _] |]);
    (destruct st; [apply filter_In in H as [H _] |]); exact H.
Qed.

Lemma filter_filter_length {A : Type} (f g : A -> bool) (l : list A) :
  length (filter f (filter g l)) <= length (filter f l).
Proof.
  induction l as [| x l IH]; cbn; [lia |].
  destruct (g x); cbn; destruct (f x); cbn; lia.
Qed.

(** X18: a caller who is neither admin nor manager is listed only rows of
    the table that carry the caller's own customer id, whatever filters
    and offsets are sent, and the total reported never exceeds the number
    of the caller's own rows. *)
Theorem customers_list_only_their_own (rows : list ShipmentRow) (u : User)
    (skip limit_ : nat) (st : option ShipmentStatus) (o d t : option string)
    (p : ShipmentPage) :
  sees_all_shipments u = false ->
  list_shipments rows u skip limit_ st o d t = Ok p ->
  (forall r, In r (items p) -> In r rows /\ customer_id r = user_id u)
  /\ total p
     <= length (filter (fun r => Z.eqb (customer_id r) (user_id u)) rows).
Proof.
  intros Hu H. unfold list_shipments in H. cbv zeta in H.
  destruct (if (0 <? length (list_query rows u st o d t))%nat
            then if (limit_ =? 0)%nat
                 then Raise (mkExn "ZeroDivisionError"
                               "integer division or modulo by zero")
                 else Ok ((length (list_query rows u st o d t) + limit_ - 1)
                          / limit_)
            else Ok 0) as [n | e]; cbn [bind] in H; [| discriminate].
  apply Ok_inj in H. subst p. cbn [items total]. split.
  - intros r Hin. apply in_firstn in Hin.
    assert (Hq : In r (list_query rows u st o d t)).
    { rewrite <- (firstn_skipn skip). apply in_or_app. now right. }
    split; [now apply list_query_incl in Hq |].
    unfold list_query, visible_to in Hq. cbv zeta in Hq.
    rewrite Hu in Hq. cbn [negb] in Hq.
    apply filter_In in Hq as [_ Hq]. now apply Z.eqb_eq in Hq.
  - unfold list_query, visible_to. cbv zeta. rewrite Hu. cbn [negb].
    destruct (given t), (given d), (given o), st;
      repeat (eapply Nat.le_trans; [apply filter_filter_length |]);
      apply Nat.le_refl.
Qed.

Lemma customers_list_only_their_own_witness :
  (forall r,
      In r (items_of (list_shipments demo_rows customer_7 0 50
                        None None (Some "chicago") None)) ->
      In r demo_rows /\ customer_id r = user_id customer_7)
  /\ length (items_of (list_shipments demo_rows customer_7 0 50
                         None None None None)) = 2.
Proof.
  split; [| reflexivity].
  refine (proj1 (customers_list_only_their_own demo_rows customer_7 0 50
                   None None (Some "chicago") None
                   (mkShipmentPage [] 0 1 50 0) _ _)); reflexivity.
Defined.

Lemma first_by_unique_key {A K : Type} (key : A -> K) (eqb : K -> K -> bool) :
  (forall a b, eqb a b = true <-> a = b) ->
  forall (l : list A) (x : A),
    NoDup (map key l) -> In x l ->
    first (filter (fun r => eqb (key r) (key x)) l) = Some x.
Proof.
  intros Heq. induction l as [| y l IH]; intros x Hnd Hin; [destruct Hin |].
  inversion Hnd as [| ? ? Hnotin Hnd']; subst. cbn [filter].
  destruct Hin as [-> | Hin].
  - now rewrite (proj2 (Heq _ _) eq_refl).
  - destruct (eqb (key y) (key x)) eqn:E.
    + apply Heq in E. exfalso. apply Hnotin. rewrite E. now apply in_map.
    + now apply IH.
Qed.

Lemma delete_row_spec (rows : list ShipmentRow) (id : Z) :
  NoDup (map shipment_id rows) ->
  forall x, In x (delete_row rows id) <-> In x rows /\ shipment_id x <> id.
Proof.
  induction rows as [| r rest IH]; intros Hnd x; cbn [delete_row].
  - cbn. tauto.
  - inversion Hnd as [| ? ? Hnotin Hnd']; subst.
    destruct (Z.eqb_spec (shipment_id r) id) as [E | E].
    + cbn [In]. split.
      * intros Hin. split; [now right |]. intros Hx. apply Hnotin.
        rewrite E, <- Hx. now apply in_map.
      * intros [[<- | Hin] Hx]; [contradiction | exact Hin].
    + cbn [In]. rewrite (IH Hnd' x). split.
      * intros [<- | [Hin Hx]]; [split; [now left | exact E] |].
        split; [now right | exact Hx].
      * intros [[<- | Hin] Hx]; [now left | right; now split].
Qed.

Lemma delete_row_length (rows : list ShipmentRow) (id : Z) (r : ShipmentRow) :
  shipment_by_id rows id = Some r ->
  length (delete_row rows id) + 1 = length rows.
Proof.
  unfold shipment_by_id.
  induction rows as [| y rest IH]; cbn [filter delete_row]; [discriminate |].
  destruct (Z.eqb (shipment_id y) id); cbn [length]; [lia |].
  intros H. specialize (IH H). lia.
Qed.

Lemma filter_none {A : Type} (f : A -> bool) (l : list A) :
  (forall x, In x l -> f x = false) -> filter f l = [].
Proof.
  intros H. destruct (filter f l) as [| y ys] eqn:E; [reflexivity |].
  assert (Hin : In y (filter f l)) by (rewrite E; now left).
  apply filter_In in Hin as [Hin Hy]. rewrite (H _ Hin) in Hy. discriminate.
Qed.

(** X20: deleting a shipment.  With unique ids, an admin's delete of a
    row of the table answers with the success message, removes exactly
    the rows with that id (one row) and leaves every other row in the
    table, and a second delete of the same id answers 404.  Any other
    role, manager included, is answered 403 and the table is left as it
    was. *)
Theorem delete_shipment_removes_one_row (rows : list ShipmentRow) (u : User)
    (r : ShipmentRow) :
  In r rows ->
  NoDup (map shipment_id rows) ->
  (user_role u = ADMIN ->
   fst (delete_shipment rows u (shipment_id r))
   = Response [("message", VStr "Shipment deleted successfully")]
   /\ (forall x,
          In x (snd (delete_shipment rows u (shipment_id r)))
          <-> In x rows /\ shipment_id x <> shipment_id r)
   /\ length (snd (delete_shipment rows u (shipment_id r))) + 1 = length rows
   /\ delete_shipment (snd (delete_shipment rows u (shipment_id r))) u
        (shipment_id r)
      = (HTTPException 404
           ("Shipment with ID " ++ str_int (shipment_id r) ++ " not found"),
         snd (delete_shipment rows u (shipment_id r))))
  /\ (user_role u <> ADMIN ->
      delete_shipment rows u (shipment_id r)
      = (HTTPException 403 "Not authorized to delete shipments", rows)).
Proof.
  intros Hin Hnd. split.
  - intros Hadmin. unfold delete_shipment. rewrite Hadmin. cbn [role_value].
    change (negb ("admin" =? "admin")) with false. cbv iota.
    assert (Hfound : shipment_by_id rows (shipment_id r) = Some r).
    { unfold shipment_by_id.
      apply (first_by_unique_key shipment_id Z.eqb Z.eqb_eq rows r Hnd Hin). }
    rewrite Hfound. cbn [fst snd]. split; [reflexivity |].
    split; [intros x; now apply delete_row_spec |].
    split; [now apply (delete_row_length rows (shipment_id r) r) |].
    + assert (Hgone : shipment_by_id (delete_row rows (shipment_id r))
                        (shipment_id r) = None).
      { unfold shipment_by_id. rewrite filter_none; [reflexivity |].
        intros x Hx. apply (delete_row_spec rows _ Hnd) in Hx as [_ Hx].
        now apply Z.eqb_neq. }
      now rewrite Hgone.
  - intros Hrole. unfold delete_shipment.
    destruct (user_role u); try contradiction; reflexivity.
Qed.

Lemma delete_shipment_removes_one_row_witness :
  snd (delete_shipment demo_rows (mkUser 1 ADMIN) 2)
  = [ mkShipmentRow 1 7 None 0%Z
        (mkShipment "TRACK1" "Chicago" "Boston" None IN_TRANSIT None None);
      mkShipmentRow 3 7 None 0%Z
        (mkShipment "TRACK3" "Denver" "Miami" None PENDING None None) ]
  /\ length (snd (delete_shipment demo_rows (mkUser 1 ADMIN) 2)) + 1
     = length demo_rows.
Proof.
  split; [reflexivity |].
  refine (proj1 (proj2 (proj2 (proj1
            (delete_shipment_removes_one_row demo_rows (mkUser 1 ADMIN)
               (mkShipmentRow 2 8 (Some 3%Z) 0%Z
                  (mkShipment "TRACK2" "Austin" "Chicago" (Some "Memphis")
                     PICKED_UP None None)) _ _) eq_refl)))).
  - right; left; reflexivity.
  - repeat constructor; cbn; intuition discriminate.
Defined.

Lemma store_row_ids (rows : list ShipmentRow) (c : ShipmentRow) :
  map shipment_id (store_row rows c) = map shipment_id rows.
Proof.
  induction rows as [| r rest IH]; cbn [store_row map]; [reflexivity |].
  destruct (Z.eqb_spec (shipment_id r) (shipment_id c)) as [E | E]; cbn [map].
  - now rewrite E.
  - now rewrite IH.
Qed.

Lemma store_row_in (rows : list ShipmentRow) (c : ShipmentRow) :
  In (shipment_id c) (map shipment_id rows) -> In c (store_row rows c).
Proof.
  induction rows as [| r rest IH]; cbn [store_row map]; [intros [] |].
  destruct (Z.eqb_spec (shipment_id r) (shipment_id c)) as [E | E].
  - intros _. now left.
  - intros [H | H]; [contradiction | right; now apply IH].
Qed.

Lemma store_row_others (rows : list ShipmentRow) (c x : ShipmentRow) :
  shipment_id x <> shipment_id c ->
  (In x (store_row rows c) <-> In x rows).
Proof.
  intros Hx. induction rows as [| r rest IH]; cbn [store_row]; [tauto |].
  destruct (Z.eqb_spec (shipment_id r) (shipment_id c)) as [E | E]; cbn [In].
  - split; (intros [H | H]; [subst; congruence | now right]).
  - rewrite IH. tauto.
Qed.

Lemma apply_update_keeps (now : datetime) (update : ShipmentUpdate)
    (shipment changed : ShipmentRow) :
  apply_update now update shipment = Ok changed ->
  shipment_id changed = shipment_id shipment
  /\ customer_id changed = customer_id shipment
  /\ created_at changed = created_at shipment
  /\ tracking_number (columns changed) = tracking_number (columns shipment)
  /\ origin (columns changed) = origin (columns shipment)
  /\ destination (columns changed) = destination (columns shipment)
  /\ stimated_delivery (columns changed) = stimated_delivery (columns shipment).
Proof.
  unfold apply_update.
  destruct (upd_status update) as [| [s |]]; cbn [bind]; intros H;
    try discriminate; apply Ok_inj in H; subst changed; cbn; tauto.
Qed.

Lemma update_shipment_success (commit : ShipmentRow -> result unit)
    (now : datetime) (rows : list ShipmentRow) (u : User) (id : Z)
    (update : ShipmentUpdate) (changed : ShipmentRow)
    (rows' : list ShipmentRow) :
  update_shipment commit now rows u id update = (Ok (Response changed), rows') ->
  exists shipment,
    sees_all_shipments u = true
    /\ shipment_by_id rows id = Some shipment
    /\ apply_update now update shipment = Ok changed
    /\ commit changed = Ok tt
    /\ rows' = store_row rows changed.
Proof.
  intros H. unfold update_shipment in H.
  destruct (sees_all_shipments u); cbn [negb] in H; [| inversion H].
  destruct (shipment_by_id rows id) as [shipment |]; [| inversion H].
  destruct (apply_update now update shipment) as [c | e] eqn:Ha;
    cbn [bind] in H; [| inversion H].
  destruct (commit c) as [[] | e] eqn:Hc; cbn [bind] in H; inversion H.
  subst. exists shipment. repeat split; try reflexivity; assumption.
Qed.

(** X21: an update changes one row and nothing else.  When the endpoint
    function returns a row, the caller is an admin or a manager, the
    database accepted the change, the row returned is the stored row with
    the requested id, with its id, customer, creation time, tracking
    number, origin, destination and stored delivery estimate as before (a
    new [estimated_delivery] in the request is never stored); the ids of
    the table are unchanged, the returned row is in the table, and every
    row with another id is in the table afterwards exactly when it was
    before.  When the function refuses with an HTTP error, the status is
    403 or 404 and the table is as it was.  Nothing is said of what
    happens after the function has returned its row (the response is
    built from it after the commit), nor of a commit that raises. *)
Theorem update_shipment_changes_one_row (commit : ShipmentRow -> result unit)
    (now : datetime) (rows : list ShipmentRow) (u : User) (id : Z)
    (update : ShipmentUpdate) (answer : result (Http ShipmentRow))
    (rows' : list ShipmentRow) :
  update_shipment commit now rows u id update = (answer, rows') ->
  match answer with
  | Ok (Response changed) =>
      exists shipment,
        shipment_by_id rows id = Some shipment
        /\ sees_all_shipments u = true
        /\ commit changed = Ok tt
        /\ shipment_id changed = id
        /\ customer_id changed = customer_id shipment
        /\ created_at changed = created_at shipment
        /\ tracking_number (columns changed) = tracking_number (columns shipment)
        /\ origin (columns changed) = origin (columns shipment)
        /\ destination (columns changed) = destination (columns shipment)
        /\ stimated_delivery (columns changed)
           = stimated_delivery (columns shipment)
        /\ map shipment_id rows' = map shipment_id rows
        /\ In changed rows'
        /\ (forall x, shipment_id x <> id -> (In x rows' <-> In x rows))
  | Ok (HTTPException code detail) =>
      rows' = rows /\ (code = 403 \/ code = 404)
  | Raise _ => True
  end.
Proof.
  intros H. destruct answer as [[changed | code detail] | e]; [| | exact I].
  - apply update_shipment_success in H
      as (shipment & Hu & Hfound & Happly & Hcommit & ->).
    apply apply_update_keeps in Happly
      as (Hid & Hcust & Hcreated & Htr & Ho & Hd & Hest).
    pose proof Hfound as Hrow. unfold shipment_by_id in Hrow.
    apply first_filter_some in Hrow as [Hin Hsame]. apply Z.eqb_eq in Hsame.
    exists shipment. repeat split; try assumption.
    + congruence.
    + apply store_row_ids.
    + apply store_row_in. rewrite Hid. now apply in_map.
    + apply store_row_others. congruence.
    + apply store_row_others. congruence.
  - unfold update_shipment in H.
    destruct (negb (sees_all_shipments u)); [inversion H; auto |].
    destruct (shipment_by_id rows id); [| inversion H; auto].
    destruct (_ <- _ ;; _); inversion H.
Qed.

Lemma update_shipment_changes_one_row_witness :
  exists changed rows',
    update_shipment (fun _ => Ok tt) 500%Z demo_rows manager_1 2
      (mkShipmentUpdate unset (set_to (Some "Chicago")) unset
         (set_to (Some 900%Z)) unset)
    = (Ok (Response changed), rows')
    /\ stimated_delivery (columns changed) = None
    /\ current_location (columns changed) = Some "Chicago"
    /\ map shipment_id rows' = map shipment_id demo_rows.
Proof.
  eexists. eexists. split; [reflexivity |].
  split; [reflexivity |]. split; [reflexivity |].
  destruct (update_shipment_changes_one_row (fun _ => Ok tt) 500%Z demo_rows
              manager_1 2
              (mkShipmentUpdate unset (set_to (Some "Chicago")) unset
                 (set_to (Some 900%Z)) unset)
              _ _ eq_refl)
    as (shipment & _ & _ & _ & _ & _ & _ & _ & _ & _ & _ & Hids & _).
  exact Hids.
Defined.

(** X22: the delivery rule of the update.  When a request that sets the
    status to delivered is answered with a row, that row is delivered and
    has a delivery time: the one sent with the request if there is one,
    else the one already stored unless the request sets it to null, else
    the time of the request.  An explicit null for the delivery time, sent
    together with the delivered status, is thus replaced by the time of
    the request. *)
Theorem delivered_update_records_delivery_time
    (commit : ShipmentRow -> result unit) (now : datetime)
    (rows : list ShipmentRow) (u : User) (id : Z) (update : ShipmentUpdate)
    (changed : ShipmentRow) (rows' : list ShipmentRow) :
  update_shipment commit now rows u id update = (Ok (Response changed), rows') ->
  field_value (upd_status update) = Some DELIVERED ->
  status (columns changed) = DELIVERED
  /\ exists shipment,
       shipment_by_id rows id = Some shipment
       /\ actual_delivery (columns changed)
          = Some match assign (upd_actual_delivery update)
                         (actual_delivery (columns shipment)) with
                 | Some at_ => at_
                 | None => now
                 end.
Proof.
  intros H Hst.
  apply update_shipment_success in H
    as (shipment & _ & Hfound & Happly & _ & _).
  unfold apply_update in Happly. rewrite Hst in Happly.
  destruct (upd_status update) as [| [s |]]; cbn [field_value] in Hst;
    try discriminate.
  injection Hst as Hs. subst s. cbn [bind] in Happly.
  apply Ok_inj in Happly. subst changed. cbn [columns status actual_delivery].
  split; [reflexivity |]. exists shipment. split; [exact Hfound |].
  now destruct (assign (upd_actual_delivery update)
                  (actual_delivery (columns shipment))).
Qed.

Lemma delivered_update_records_delivery_time_witness :
  exists changed rows',
    update_shipment (fun _ => Ok tt) 500%Z demo_rows manager_1 2
      (mkShipmentUpdate (set_to (Some DELIVERED)) unset unset unset
         (set_to None))
    = (Ok (Response changed), rows')
    /\ status (columns changed) = DELIVERED
    /\ actual_delivery (columns changed) = Some 500%Z.
Proof.
  eexists. eexists. split; [reflexivity |]. split; [| reflexivity].
  exact (proj1 (delivered_update_records_delivery_time (fun _ => Ok tt) 500%Z
                  demo_rows manager_1 2
                  (mkShipmentUpdate (set_to (Some DELIVERED)) unset unset unset
                     (set_to None))
                  _ _ eq_refl eq_refl)).
Defined.

Lemma count_by_status (rows : list ShipmentRow) :
  length rows
  = count_status rows PENDING + count_status rows PICKED_UP
    + count_status rows IN_TRANSIT + count_status rows OUT_FOR_DELIVERY
    + count_status rows DELIVERED + count_status rows DELAYED
    + count_status rows CANCELLED.
Proof.
  unfold count_status. induction rows as [| r rows IH]; [reflexivity |].
  cbn [filter length]. rewrite IH.
  destruct (status (columns r));
    repeat match goal with
           | |- context [status_eqb ?a ?b] =>
               let v := eval vm_compute in (status_eqb a b) in
               change (status_eqb a b) with v
           end;
    cbn [length]; lia.
Qed.

(** X23: the statistics overview.  The four counts under [by_status]
    (pending, in transit, delivered, delayed) do not add up to the total:
    the total exceeds their sum by the number of visible shipments that
    are picked up, out for delivery or cancelled.  The count of recent
    shipments never exceeds the total, and the total never exceeds the
    size of the table. *)
Theorem statistics_leave_out_three_statuses (now : datetime)
    (rows : list ShipmentRow) (u : User) :
  total_shipments (get_shipment_statistics now rows u)
  = pending_count (get_shipment_statistics now rows u)
    + in_transit_count (get_shipment_statistics now rows u)
    + delivered_count (get_shipment_statistics now rows u)
    + delayed_count (get_shipment_statistics now rows u)
    + (count_status (visible_to u rows) PICKED_UP
       + count_status (visible_to u rows) OUT_FOR_DELIVERY
       + count_status (visible_to u rows) CANCELLED)
  /\ recent_shipments_7days (get_shipment_statistics now rows u)
     <= total_shipments (get_shipment_statistics now rows u)
  /\ total_shipments (get_shipment_statistics now rows u) <= length rows.
Proof.
  unfold get_shipment_statistics. cbv zeta.
  cbn [total_shipments pending_count in_transit_count delivered_count
       delayed_count recent_shipments_7days].
  split; [| split].
  - rewrite (count_by_status (visible_to u rows)) at 1. lia.
  - apply filter_length_le.
  - unfold visible_to. destruct (negb (sees_all_shipments u));
      [apply filter_length_le | apply Nat.le_refl].
Qed.
